(** * Checkpoint store of strix (src/strix/telemetry/checkpoint.py)

    A shallow embedding of [save_checkpoint], [load_checkpoint],
    [can_resume] and [delete_checkpoint], and the properties of the
    checkpoint store proved about it.

    The Python code runs against three collaborators that are not part of
    the repository: the file system (pathlib), the [json] module and the
    agent-state object.  They are modelled as follows.

    - The file system is a finite map from paths to nodes (regular file
      with its content, or directory), a set of paths on which the
      operating system refuses access, and the free space of the device.
      Every I/O failure is a function of that state.
    - An interruption of the process is a fuse carried by the world: each
      primitive step burns one unit, and when the fuse is spent the step
      raises [KeyboardInterrupt], which no handler of the module catches.
    - The [json] module is a parameter (a [JsonCodec]); [MiniJson] at the
      end of the definitions is an executable codec used to run the model
      on concrete files.
    - The agent state is a record of what its two attributes used by the
      module do. *)

From Stdlib Require Import ZArith QArith Ascii String List Bool Lia.
From Stdlib Require Import DecimalString.
From stdpp Require Import base gmap strings list.

Set Warnings "-register-all".
Local Open Scope string_scope.
Local Open Scope list_scope.

(** ** Exceptions *)

(** The exception classes that occur in the module or in the library calls
    it makes. *)
Inductive exn :=
| OSError | RuntimeError | RecursionError | TypeError | ValueError
| JSONDecodeError | UnicodeDecodeError | KeyError | AttributeError
| KeyboardInterrupt.

Definition exn_eqb (a b : exn) : bool :=
  match a, b with
  | OSError, OSError | RuntimeError, RuntimeError
  | RecursionError, RecursionError | TypeError, TypeError
  | ValueError, ValueError | JSONDecodeError, JSONDecodeError
  | UnicodeDecodeError, UnicodeDecodeError | KeyError, KeyError
  | AttributeError, AttributeError
  | KeyboardInterrupt, KeyboardInterrupt => true
  | _, _ => false
  end.

(** [isinstance e c]: an exception of class [e] is an instance of class [c]
    (Python's class hierarchy: [RecursionError] derives from
    [RuntimeError]; [JSONDecodeError] and [UnicodeDecodeError] derive from
    [ValueError]). *)
Definition isinstance (e c : exn) : bool :=
  exn_eqb e c ||
  match e, c with
  | RecursionError, RuntimeError => true
  | JSONDecodeError, ValueError => true
  | UnicodeDecodeError, ValueError => true
  | _, _ => false
  end.

(** An [except (c1, c2, ...)] clause catches [e]. *)
Definition catches (classes : list exn) (e : exn) : bool :=
  existsb (isinstance e) classes.

Inductive result (A : Type) :=
| Ok (a : A)
| Raise (e : exn).
Arguments Ok {A} a.
Arguments Raise {A} e.

(** ** Python values *)

Inductive pyfloat :=
| FFinite (q : Q)        (* a finite float, by its exact value *)
| FInf (negative : bool)
| FNaN.

(** The values the module handles: what [json.load] produces, plus tuples
    and sets, which a caller can put in a configuration mapping.
    A str is held as the UTF-8 encoding of its text.
    A dict is kept in insertion order, its keys are strings
    ([dict[str, Any]]); the first binding of a key is the one in force. *)
Inductive pyval :=
| PNone
| PBool (b : bool)
| PInt (n : Z)
| PFloat (f : pyfloat)
| PStr (s : string)
| PList (l : list pyval)
| PTuple (l : list pyval)
| PSet (l : list pyval)
| PDict (d : list (string * pyval)).

Fixpoint dict_get (k : string) (d : list (string * pyval)) : option pyval :=
  match d with
  | [] => None
  | (k', v) :: d' => if String.eqb k k' then Some v else dict_get k d'
  end.

Definition dict_mem (k : string) (d : list (string * pyval)) : bool :=
  match dict_get k d with Some _ => true | None => false end.

(** [v == n] for an int [n]: numbers compare by value across bool, int and
    float; every other value differs from an int. *)
Definition py_eq_int (v : pyval) (n : Z) : bool :=
  match v with
  | PBool b => Z.eqb (if b then 1 else 0) n
  | PInt m => Z.eqb m n
  | PFloat (FFinite q) => Qeq_bool q (inject_Z n)
  | _ => false
  end.

(** Truth value of an object ([bool(v)]). *)
Definition py_truthy (v : pyval) : bool :=
  match v with
  | PNone => false
  | PBool b => b
  | PInt n => negb (Z.eqb n 0)
  | PFloat (FFinite q) => negb (Qeq_bool q (inject_Z 0))
  | PFloat _ => true
  | PStr s => negb (String.eqb s "")
  | PList l | PTuple l | PSet l => match l with [] => false | _ => true end
  | PDict d => match d with [] => false | _ => true end
  end.

(** [a or b]. *)
Definition py_or (a b : pyval) : pyval := if py_truthy a then a else b.

(** [v.get(k, default)]: only a dict has the method. *)
Definition py_get (v : pyval) (k : string) (default : pyval) : result pyval :=
  match v with
  | PDict d => Ok (match dict_get k d with Some x => x | None => default end)
  | _ => Raise AttributeError
  end.

Definition is_str (k : string) (v : pyval) : bool :=
  match v with PStr s => String.eqb s k | _ => false end.

Fixpoint is_infix (k s : string) : bool :=
  String.prefix k s ||
  match s with
  | EmptyString => false
  | String _ s' => is_infix k s'
  end.

(** [k in v] for a string [k]: key membership in a dict, element membership
    in a list, tuple or set, substring test in a string. *)
Definition py_in (k : string) (v : pyval) : result bool :=
  match v with
  | PDict d => Ok (dict_mem k d)
  | PList l | PTuple l | PSet l => Ok (existsb (is_str k) l)
  | PStr s => Ok (is_infix k s)
  | _ => Raise TypeError
  end.

(** Number of characters of a text: the bytes of its UTF-8 encoding that
    are not continuation bytes (10xxxxxx). *)
Fixpoint utf8_length (s : string) : nat :=
  match s with
  | EmptyString => 0
  | String c s' =>
      let b := N_of_ascii c in
      (if N.leb 128 b && N.leb b 191 then 0 else 1) + utf8_length s'
  end.

(** [len(v)]. *)
Definition py_len (v : pyval) : result nat :=
  match v with
  | PStr s => Ok (utf8_length s)
  | PList l | PTuple l | PSet l => Ok (List.length l)
  | PDict d => Ok (List.length d)
  | _ => Raise TypeError
  end.

(** ** Paths *)

(** A path is the list of its components ([PurePath.parts]). *)
Definition Path := list string.

(** [p / name] *)
Definition joinpath (p : Path) (name : string) : Path := p ++ [name].

(** [p.name] and [p.parent] *)
Definition path_name (p : Path) : string := List.last p "".
Definition path_parent (p : Path) : Path := List.removelast p.

Fixpoint rfind_dot (s : string) : option nat :=
  match s with
  | EmptyString => None
  | String c s' =>
      match rfind_dot s' with
      | Some i => Some (S i)
      | None => if Ascii.eqb c "." then Some 0 else None
      end
  end.

(** [PurePath.suffix]: the part of the name from its last dot on, when that
    dot is neither the first nor the last character. *)
Definition name_suffix (name : string) : string :=
  match rfind_dot name with
  | Some i =>
      if Nat.ltb 0 i && Nat.ltb i (String.length name - 1)
      then String.substring i (String.length name - i) name
      else ""
  | None => ""
  end.

(** [PurePath.with_suffix]. *)
Definition with_suffix (p : Path) (suffix : string) : result Path :=
  if is_infix "/" suffix
     || (negb (String.eqb suffix "") && negb (String.prefix "." suffix))
     || String.eqb suffix "."
  then Raise ValueError
  else
    let name := path_name p in
    if String.eqb name "" then Raise ValueError
    else
      let old_suffix := name_suffix name in
      let stem :=
        String.substring 0 (String.length name - String.length old_suffix) name in
      Ok (path_parent p ++ [String.append stem suffix]).

(** ** The world: file system, interruption, clock and log *)

Inductive node :=
| File (content : string)
| Dir.

Inductive level := DEBUG | INFO | WARNING | ERROR.

Inductive message :=
| MsgSaved (iteration : pyval)
| MsgSaveFailed (e : exn)
| MsgNoCheckpoint (p : Path)
| MsgVersionMismatch (expected : Z) (got : pyval)
| MsgMissingFields (missing : list string)
| MsgLoaded
| MsgLoadFailed (e : exn)
| MsgCompleted
| MsgTargetMismatch (saved current : nat)
| MsgDeleted
| MsgDeleteFailed (e : exn).

Record World := mkWorld {
  fs : gmap (list string) node;   (* the files and directories *)
  denied : gset (list string);    (* paths the OS refuses to open, rename or remove *)
  space : nat;                    (* bytes the device still takes; none is given back *)
  fuse : option nat;              (* steps left before an interruption, if one comes *)
  clock : string;                 (* datetime.now(UTC).isoformat() *)
  log : list (level * message)    (* records emitted through the module logger *)
}.

Definition set_fs (w : World) (m : gmap (list string) node) : World :=
  mkWorld m (denied w) (space w) (fuse w) (clock w) (log w).
Definition set_space (w : World) (n : nat) : World :=
  mkWorld (fs w) (denied w) n (fuse w) (clock w) (log w).
Definition set_fuse (w : World) (f : option nat) : World :=
  mkWorld (fs w) (denied w) (space w) f (clock w) (log w).
Definition add_log (w : World) (r : level * message) : World :=
  mkWorld (fs w) (denied w) (space w) (fuse w) (clock w) (log w ++ [r]).

(** ** The monad of the module: state and exceptions *)

Definition M (A : Type) : Type := World -> result A * World.

Definition ret {A} (a : A) : M A := fun w => (Ok a, w).
Definition raise {A} (e : exn) : M A := fun w => (Raise e, w).
Definition bind {A B} (m : M A) (k : A -> M B) : M B :=
  fun w =>
    match m w with
    | (Ok a, w') => k a w'
    | (Raise e, w') => (Raise e, w')
    end.
Definition lift {A} (r : result A) : M A := fun w => (r, w).

(** [try: body except classes as e: handler e] *)
Definition try_except {A} (body : M A) (classes : list exn)
    (handler : exn -> M A) : M A :=
  fun w =>
    match body w with
    | (Ok a, w') => (Ok a, w')
    | (Raise e, w') =>
        if catches classes e then handler e w' else (Raise e, w')
    end.

Declare Scope py_scope.
Delimit Scope py_scope with py.
Notation "'let!' x ':=' c 'in' k" := (bind c (fun x => k))
  (at level 10, x name, c at level 100, k at level 200) : py_scope.
Notation "'do!' c 'in' k" := (bind c (fun _ => k))
  (at level 10, c at level 100, k at level 200) : py_scope.
Local Open Scope py_scope.

(** One primitive step; an interruption arrives when the fuse is spent. *)
Definition tick : M unit :=
  fun w =>
    match fuse w with
    | None => (Ok tt, w)
    | Some O => (Raise KeyboardInterrupt, w)
    | Some (S n) => (Ok tt, set_fuse w (Some n))
    end.

Definition logger (l : level) (m : message) : M unit :=
  fun w => (Ok tt, add_log w (l, m)).

(** [datetime.now(UTC).isoformat()] *)
Definition now_isoformat : M string := fun w => (Ok (clock w), w).

(** [p.exists()] *)
Definition path_exists (p : Path) : M bool :=
  do! tick in
  fun w => (Ok (match fs w !! p with Some _ => true | None => false end), w).

(** [p.open("w")]: creates or truncates the file. *)
Definition open_write (p : Path) : M unit :=
  do! tick in
  fun w =>
    if bool_decide (p ∈ denied w) then (Raise OSError, w)
    else
      match fs w !! p, fs w !! path_parent p with
      | Some Dir, _ => (Raise OSError, w)
      | _, Some Dir => (Ok tt, set_fs w (<[p := File ""]> (fs w)))
      | _, _ => (Raise OSError, w)
      end.

(** One byte reaches the file; the device may be full. *)
Definition write_byte (p : Path) (c : ascii) : M unit :=
  do! tick in
  fun w =>
    match space w, fs w !! p with
    | S n, Some (File old) =>
        let content := String.append old (String c "") in
        (Ok tt, set_space (set_fs w (<[p := File content]> (fs w))) n)
    | _, _ => (Raise OSError, w)
    end.

(** [f.write(s)] followed to the disk. *)
Fixpoint write_text (p : Path) (s : string) : M unit :=
  match s with
  | EmptyString => ret tt
  | String c s' => do! write_byte p c in write_text p s'
  end.

(** [p.open("r")] and [f.read()]. *)
Definition read_text (p : Path) : M string :=
  do! tick in
  fun w =>
    if bool_decide (p ∈ denied w) then (Raise OSError, w)
    else
      match fs w !! p with
      | Some (File s) => (Ok s, w)
      | _ => (Raise OSError, w)
      end.

(** [src.replace(dst)] (os.replace): one indivisible step. *)
Definition replace (src dst : Path) : M unit :=
  do! tick in
  fun w =>
    if bool_decide (src ∈ denied w) || bool_decide (dst ∈ denied w)
    then (Raise OSError, w)
    else
      match fs w !! src, fs w !! dst, fs w !! path_parent dst with
      | Some (File s), Some Dir, _ => (Raise OSError, w)
      | Some (File s), _, Some Dir =>
          (Ok tt, set_fs w (<[dst := File s]> (delete src (fs w))))
      | _, _, _ => (Raise OSError, w)
      end.

(** [p.unlink()] *)
Definition unlink (p : Path) : M unit :=
  do! tick in
  fun w =>
    if bool_decide (p ∈ denied w) then (Raise OSError, w)
    else
      match fs w !! p with
      | Some (File _) => (Ok tt, set_fs w (delete p (fs w)))
      | _ => (Raise OSError, w)
      end.

(** ** Collaborators: the json module and the agent state *)

(** What [json.dump] can raise besides the I/O errors of the file it writes
    to, and what [json.load] can raise besides those of the file it reads. *)
Inductive encode_error := EncTypeError | EncValueError | EncRecursionError.
Inductive decode_error :=
| DecJSONDecodeError | DecUnicodeDecodeError | DecRecursionError | DecValueError.

Definition exn_of_encode (e : encode_error) : exn :=
  match e with
  | EncTypeError => TypeError
  | EncValueError => ValueError
  | EncRecursionError => RecursionError
  end.

Definition exn_of_decode (e : decode_error) : exn :=
  match e with
  | DecJSONDecodeError => JSONDecodeError
  | DecUnicodeDecodeError => UnicodeDecodeError
  | DecRecursionError => RecursionError
  | DecValueError => ValueError
  end.

(** The json module.  [json_encode v] is the text [json.dump(v, f, indent=2)]
    sends to [f], chunk after chunk, and the exception that stops it, if
    any: the text emitted before the exception has been written already.
    [json_decode s] is what [json.load] makes of a file holding [s]. *)
Record JsonCodec := {
  json_encode : pyval -> string * option encode_error;
  json_decode : string -> decode_error + pyval
}.

(** The agent state, as far as the module uses it: the outcome of
    [agent_state.model_dump(mode='json')] and the attribute
    [agent_state.iteration]; [None] when the object has no such attribute. *)
Record AgentState := {
  model_dump : option (result pyval);
  iteration : option pyval
}.

Definition call_model_dump (a : AgentState) : M pyval :=
  match model_dump a with
  | Some r => lift r
  | None => raise AttributeError
  end.

Definition get_iteration (a : AgentState) : M pyval :=
  match iteration a with
  | Some v => ret v
  | None => raise AttributeError
  end.

(** ** The module *)

Definition CHECKPOINT_VERSION : Z := 1.

Definition get_checkpoint_path (run_dir : Path) : Path :=
  joinpath run_dir "checkpoint.json".

Section Checkpoint.

Variable json : JsonCodec.

(** [json.dump(v, f, indent=2)] on the file open at [p]. *)
Definition json_dump (v : pyval) (p : Path) : M unit :=
  let (text, err) := json_encode json v in
  do! write_text p text in
  match err with
  | Some e => raise (exn_of_encode e)
  | None => ret tt
  end.

(** [json.load(f)] on the file at [p]. *)
Definition json_load (p : Path) : M pyval :=
  let! text := read_text p in
  match json_decode json text with
  | inl e => raise (exn_of_decode e)
  | inr v => ret v
  end.

(** The checkpoint record built by [save_checkpoint] (lines 62-68). *)
Definition build_checkpoint (created_at : string) (scan_config snapshot
    tracer_data : pyval) : pyval :=
  PDict [("version", PInt CHECKPOINT_VERSION);
         ("created_at", PStr created_at);
         ("scan_config", scan_config);
         ("agent_state", snapshot);
         ("tracer_data", py_or tracer_data (PDict []))].

(** Lines 59-76: the body of the [try] up to and including the rename. *)
Definition save_until_rename (run_dir : Path) (agent_state : AgentState)
    (scan_config tracer_data : pyval) : M unit :=
  let checkpoint_path := get_checkpoint_path run_dir in
  let! created_at := now_isoformat in
  let! snapshot := call_model_dump agent_state in
  let checkpoint :=
    build_checkpoint created_at scan_config snapshot tracer_data in
  let! temp_path := lift (with_suffix checkpoint_path ".tmp") in
  do! open_write temp_path in
  do! json_dump checkpoint temp_path in
  replace temp_path checkpoint_path.

Definition save_checkpoint (run_dir : Path) (agent_state : AgentState)
    (scan_config tracer_data : pyval) : M unit :=
  try_except
    (do! save_until_rename run_dir agent_state scan_config tracer_data in
     let! it := get_iteration agent_state in
     logger INFO (MsgSaved it))
    [OSError; RuntimeError; TypeError; ValueError]
    (fun e => logger ERROR (MsgSaveFailed e)).

(** [[field for field in required if field not in checkpoint]] *)
Fixpoint missing_fields (required : list string) (checkpoint : pyval)
    : result (list string) :=
  match required with
  | [] => Ok []
  | field :: rest =>
      match py_in field checkpoint with
      | Raise e => Raise e
      | Ok present =>
          match missing_fields rest checkpoint with
          | Raise e => Raise e
          | Ok missing => Ok (if present then missing else field :: missing)
          end
      end
  end.

Definition load_checkpoint (run_dir : Path) : M (option pyval) :=
  try_except
    (let checkpoint_path := get_checkpoint_path run_dir in
     let! found := path_exists checkpoint_path in
     if negb found then
       do! logger DEBUG (MsgNoCheckpoint checkpoint_path) in
       ret None
     else
       let! checkpoint := json_load checkpoint_path in
       let! version := lift (py_get checkpoint "version" PNone) in
       if negb (py_eq_int version CHECKPOINT_VERSION) then
         do! logger WARNING (MsgVersionMismatch CHECKPOINT_VERSION version) in
         ret None
       else
         let required := ["scan_config"; "agent_state"] in
         let! missing := lift (missing_fields required checkpoint) in
         match missing with
         | _ :: _ =>
             do! logger WARNING (MsgMissingFields missing) in
             ret None
         | [] =>
             do! logger INFO MsgLoaded in
             ret (Some checkpoint)
         end)
    [OSError; JSONDecodeError; KeyError; TypeError]
    (fun e => do! logger ERROR (MsgLoadFailed e) in ret None).

(** Lines 148-167: the decision of [can_resume] on a loaded checkpoint. *)
Definition check_compatible (checkpoint current_scan_config : pyval)
    : M bool :=
  let! agent_state_data :=
    lift (py_get checkpoint "agent_state" (PDict [])) in
  let! completed :=
    lift (py_get agent_state_data "completed" (PBool false)) in
  if py_truthy completed then
    do! logger INFO MsgCompleted in
    ret false
  else
    let! saved_config := lift (py_get checkpoint "scan_config" (PDict [])) in
    let! saved_targets := lift (py_get saved_config "targets" (PList [])) in
    let! current_targets :=
      lift (py_get current_scan_config "targets" (PList [])) in
    let! n_saved := lift (py_len saved_targets) in
    let! n_current := lift (py_len current_targets) in
    if negb (Nat.eqb n_saved n_current) then
      do! logger WARNING (MsgTargetMismatch n_saved n_current) in
      ret false
    else ret true.

Definition can_resume (run_dir : Path) (current_scan_config : pyval)
    : M bool :=
  let! checkpoint := load_checkpoint run_dir in
  match checkpoint with
  | None => ret false
  | Some ck =>
      if negb (py_truthy ck) then ret false
      else check_compatible ck current_scan_config
  end.

Definition delete_checkpoint (run_dir : Path) : M unit :=
  try_except
    (let checkpoint_path := get_checkpoint_path run_dir in
     let! found := path_exists checkpoint_path in
     if found then
       do! unlink checkpoint_path in
       logger INFO MsgDeleted
     else ret tt)
    [OSError]
    (fun e => logger WARNING (MsgDeleteFailed e)).

End Checkpoint.

(** ** MiniJson: an executable codec

    A JSON writer and reader that follow [json.dump(_, _, indent=2)] and
    [json.load] of the Python standard library: two-space indentation, a
    comma and a line break between items, a colon and a space after a key,
    [ensure_ascii] escapes, the literals [NaN], [Infinity] and [-Infinity],
    last binding wins for a repeated key, at most 4300 digits in an
    integer.  It is coarser than Python in two places: a number with a
    fraction or an exponent is read as its exact decimal value (no rounding
    to binary64) and written in positional notation, and the depth of
    nesting is bounded by the length of the text only, not by the
    interpreter's recursion limit. *)
Module MiniJson.

Definition byte (c : ascii) : N := N_of_ascii c.
Definition in_range (lo hi : N) (c : ascii) : bool :=
  N.leb lo (byte c) && N.leb (byte c) hi.
Definition chr (n : N) : ascii := ascii_of_N n.
Definition str1 (n : N) : string := String (chr n) "".

Definition quote : ascii := chr 34.
Definition backslash : ascii := chr 92.
Definition newline : ascii := chr 10.

(** *** Writer *)

Definition hex_digit (n : N) : ascii :=
  if N.ltb n 10 then chr (48 + n) else chr (87 + n).

(** [\uXXXX] *)
Definition escape_u (cp : N) : string :=
  String backslash (String "u"
    (String (hex_digit (N.shiftr cp 12 mod 16))
    (String (hex_digit (N.shiftr cp 8 mod 16))
    (String (hex_digit (N.shiftr cp 4 mod 16))
    (String (hex_digit (cp mod 16)) ""))))).

(** A character outside the Basic Multilingual Plane is written as a
    surrogate pair. *)
Definition escape_codepoint (cp : N) : string :=
  if N.ltb cp 65536 then escape_u cp
  else
    let v := (cp - 65536)%N in
    String.append (escape_u (55296 + N.shiftr v 10))
                  (escape_u (56320 + v mod 1024)).

Definition escape_ascii (c : ascii) : string :=
  let b := byte c in
  if N.eqb b 34 then String backslash (String quote "")
  else if N.eqb b 92 then String backslash (String backslash "")
  else if N.eqb b 10 then String backslash "n"
  else if N.eqb b 13 then String backslash "r"
  else if N.eqb b 9 then String backslash "t"
  else if N.eqb b 8 then String backslash "b"
  else if N.eqb b 12 then String backslash "f"
  else if N.leb 32 b && N.leb b 126 then String c ""
  else escape_u b.

Definition low6 (c : ascii) : N := byte c mod 64.

(** The body of a string literal for UTF-8 encoded text. *)
Fixpoint escape_text (s : list ascii) : string :=
  match s with
  | [] => ""
  | b0 :: s1 =>
      if N.ltb (byte b0) 128 then String.append (escape_ascii b0) (escape_text s1)
      else
        match s1 with
        | b1 :: s2 =>
            if N.ltb (byte b0) 224 then
              String.append
                (escape_codepoint ((byte b0 mod 32) * 64 + low6 b1))
                (escape_text s2)
            else
              match s2 with
              | b2 :: s3 =>
                  if N.ltb (byte b0) 240 then
                    String.append
                      (escape_codepoint
                         ((byte b0 mod 16) * 4096 + low6 b1 * 64 + low6 b2))
                      (escape_text s3)
                  else
                    match s3 with
                    | b3 :: s4 =>
                        String.append
                          (escape_codepoint
                             ((byte b0 mod 8) * 262144 + low6 b1 * 4096
                              + low6 b2 * 64 + low6 b3))
                          (escape_text s4)
                    | [] => escape_u (byte b0)
                    end
              | [] => escape_u (byte b0)
              end
        | [] => escape_u (byte b0)
        end
  end.

Definition encode_str (s : string) : string :=
  String quote
    (String.append (escape_text (list_ascii_of_string s)) (String quote "")).

Definition encode_int (n : Z) : string :=
  NilZero.string_of_int (Z.to_int n).

Fixpoint zeros (n : nat) : string :=
  match n with O => "" | S n' => String "0" (zeros n') end.

Fixpoint find_scale (fuel k : nat) (d : Z) : option nat :=
  if Z.eqb ((10 ^ Z.of_nat k) mod d) 0 then Some k
  else match fuel with
       | O => None
       | S fuel' => find_scale fuel' (S k) d
       end.

(** A finite float in positional notation, with at least one digit after
    the point. *)
Definition encode_finite (q : Q) : option string :=
  match find_scale 1100 0 (Zpos (Qden q)) with
  | None => None
  | Some k =>
      let m := (Z.abs (Qnum q) * 10 ^ Z.of_nat k / Zpos (Qden q))%Z in
      let digits := NilZero.string_of_uint (N.to_uint (Z.to_N m)) in
      let padded :=
        String.append (zeros (S k - String.length digits)) digits in
      let cut := String.length padded - k in
      let whole := String.substring 0 cut padded in
      let frac := String.substring cut k padded in
      Some (String.append (if Z.ltb (Qnum q) 0 then "-" else "")
             (String.append whole
                (String.append "." (if Nat.eqb k 0 then "0" else frac))))
  end.

Definition newline_indent (lvl : nat) : string :=
  String newline (String.concat "" (List.repeat "  " lvl)).

(** [encode lvl v]: the text written for [v] at nesting depth [lvl], and the
    error that stops the writer, if any. *)
Fixpoint encode (lvl : nat) (v : pyval) {struct v}
    : string * option encode_error :=
  let items :=
    fix items (first : bool) (l : list pyval) {struct l}
        : string * option encode_error :=
      match l with
      | [] => ("", None)
      | x :: l' =>
          let sep :=
            String.append (if first then "" else ",") (newline_indent (S lvl)) in
          match encode (S lvl) x with
          | (t, Some e) => (String.append sep t, Some e)
          | (t, None) =>
              let (t', e') := items false l' in
              (String.append sep (String.append t t'), e')
          end
      end in
  let members :=
    fix members (first : bool) (d : list (string * pyval)) {struct d}
        : string * option encode_error :=
      match d with
      | [] => ("", None)
      | (k, x) :: d' =>
          let sep :=
            String.append (if first then "" else ",") (newline_indent (S lvl)) in
          let key := String.append sep (String.append (encode_str k) ": ") in
          match encode (S lvl) x with
          | (t, Some e) => (String.append key t, Some e)
          | (t, None) =>
              let (t', e') := members false d' in
              (String.append key (String.append t t'), e')
          end
      end in
  match v with
  | PNone => ("null", None)
  | PBool true => ("true", None)
  | PBool false => ("false", None)
  | PInt n => (encode_int n, None)
  | PFloat FNaN => ("NaN", None)
  | PFloat (FInf false) => ("Infinity", None)
  | PFloat (FInf true) => ("-Infinity", None)
  | PFloat (FFinite q) =>
      match encode_finite q with
      | Some t => (t, None)
      | None => ("", Some EncValueError)
      end
  | PStr s => (encode_str s, None)
  | PList [] | PTuple [] => ("[]", None)
  | PList l | PTuple l =>
      match items true l with
      | (t, Some e) => (String.append "[" t, Some e)
      | (t, None) =>
          (String.append "[" (String.append t
             (String.append (newline_indent lvl) "]")), None)
      end
  | PDict [] => ("{}", None)
  | PDict d =>
      match members true d with
      | (t, Some e) => (String.append "{" t, Some e)
      | (t, None) =>
          (String.append "{" (String.append t
             (String.append (newline_indent lvl) "}")), None)
      end
  | PSet _ => ("", Some EncTypeError)
  end.

Definition dumps (v : pyval) : string * option encode_error := encode 0 v.

(** *** Reader *)

Definition cont (c : ascii) : bool := in_range 128 191 c.

(** Strict UTF-8, as the text layer of the file decodes it. *)
Fixpoint utf8_valid (s : list ascii) : bool :=
  match s with
  | [] => true
  | b0 :: s1 =>
      if N.ltb (byte b0) 128 then utf8_valid s1
      else
        match s1 with
        | b1 :: s2 =>
            if in_range 194 223 b0 then cont b1 && utf8_valid s2
            else
              match s2 with
              | b2 :: s3 =>
                  if in_range 224 239 b0 then
                    (if N.eqb (byte b0) 224 then in_range 160 191 b1
                     else if N.eqb (byte b0) 237 then in_range 128 159 b1
                     else cont b1)
                    && cont b2 && utf8_valid s3
                  else
                    match s3 with
                    | b3 :: s4 =>
                        in_range 240 244 b0
                        && (if N.eqb (byte b0) 240 then in_range 144 191 b1
                            else if N.eqb (byte b0) 244 then in_range 128 143 b1
                            else cont b1)
                        && cont b2 && cont b3 && utf8_valid s4
                    | [] => false
                    end
              | [] => false
              end
        | [] => false
        end
  end.

(** The UTF-8 encoding of a code point (a lone surrogate is encoded like
    any other three-byte character). *)
Definition utf8_encode (cp : N) : string :=
  if N.ltb cp 128 then str1 cp
  else if N.ltb cp 2048 then
    String (chr (192 + N.shiftr cp 6)) (str1 (128 + cp mod 64))
  else if N.ltb cp 65536 then
    String (chr (224 + N.shiftr cp 12))
      (String (chr (128 + N.shiftr cp 6 mod 64)) (str1 (128 + cp mod 64)))
  else
    String (chr (240 + N.shiftr cp 18))
      (String (chr (128 + N.shiftr cp 12 mod 64))
         (String (chr (128 + N.shiftr cp 6 mod 64)) (str1 (128 + cp mod 64)))).

Definition is_ws (c : ascii) : bool :=
  let b := byte c in N.eqb b 32 || N.eqb b 9 || N.eqb b 10 || N.eqb b 13.

Fixpoint skip_ws (s : list ascii) : list ascii :=
  match s with
  | c :: s' => if is_ws c then skip_ws s' else s
  | [] => []
  end.

Definition is_digit (c : ascii) : bool := in_range 48 57 c.

Definition hex_val (c : ascii) : option N :=
  if in_range 48 57 c then Some (byte c - 48)%N
  else if in_range 97 102 c then Some (byte c - 87)%N
  else if in_range 65 70 c then Some (byte c - 55)%N
  else None.

Definition hex4 (a b c d : ascii) : option N :=
  match hex_val a, hex_val b, hex_val c, hex_val d with
  | Some x, Some y, Some z, Some t => Some (x * 4096 + y * 256 + z * 16 + t)%N
  | _, _, _, _ => None
  end.

Definition is_high (cp : N) : bool := N.leb 55296 cp && N.leb cp 56319.
Definition is_low (cp : N) : bool := N.leb 56320 cp && N.leb cp 57343.

(** The rest of a string literal after its opening quote; [pending] is a
    high surrogate read from the escape just before, waiting for its low
    half. *)
Fixpoint scan_string (pending : option N) (s : list ascii)
    : option (string * list ascii) :=
  let flush := match pending with Some h => utf8_encode h | None => "" end in
  let emit (t : string) (r : option (string * list ascii)) :=
    match r with
    | Some (body, rest) => Some (String.append flush (String.append t body), rest)
    | None => None
    end in
  match s with
  | [] => None
  | c :: s1 =>
      if N.eqb (byte c) 34 then Some (flush, s1)
      else if N.eqb (byte c) 92 then
        match s1 with
        | e :: s2 =>
            let b := byte e in
            if N.eqb b 34 || N.eqb b 92 || N.eqb b 47 then
              emit (String e "") (scan_string None s2)
            else if N.eqb b 98 then emit (str1 8) (scan_string None s2)
            else if N.eqb b 102 then emit (str1 12) (scan_string None s2)
            else if N.eqb b 110 then emit (str1 10) (scan_string None s2)
            else if N.eqb b 114 then emit (str1 13) (scan_string None s2)
            else if N.eqb b 116 then emit (str1 9) (scan_string None s2)
            else if N.eqb b 117 then
              match s2 with
              | h1 :: h2 :: h3 :: h4 :: s6 =>
                  match hex4 h1 h2 h3 h4 with
                  | Some cp =>
                      match pending with
                      | Some h =>
                          if is_low cp then
                            match scan_string None s6 with
                            | Some (body, rest) =>
                                Some (String.append
                                        (utf8_encode
                                           (65536 + (h - 55296) * 1024
                                            + (cp - 56320)))
                                        body, rest)
                            | None => None
                            end
                          else if is_high cp then
                            match scan_string (Some cp) s6 with
                            | Some (body, rest) =>
                                Some (String.append (utf8_encode h) body, rest)
                            | None => None
                            end
                          else emit (utf8_encode cp) (scan_string None s6)
                      | None =>
                          if is_high cp then scan_string (Some cp) s6
                          else emit (utf8_encode cp) (scan_string None s6)
                      end
                  | None => None
                  end
              | _ => None
              end
            else None
        | [] => None
        end
      else if N.ltb (byte c) 32 then None
      else emit (String c "") (scan_string None s1)
  end.

Fixpoint take_digits (s : list ascii) : list ascii * list ascii :=
  match s with
  | c :: s' =>
      if is_digit c then let (ds, rest) := take_digits s' in (c :: ds, rest)
      else ([], s)
  | [] => ([], [])
  end.

Definition digits_value (ds : list ascii) : Z :=
  fold_left (fun acc c => (acc * 10 + Z.of_N (byte c - 48))%Z) ds 0%Z.

Definition pow10 (e : Z) (m : Z) : Q :=
  if Z.leb 0 e then inject_Z (m * 10 ^ e)
  else Qmake m (Z.to_pos (10 ^ (- e))).

(** A number: an optional minus sign, an integer part without leading
    zero, an optional fraction, an optional exponent. *)
Definition scan_number (s : list ascii)
    : decode_error + (pyval * list ascii) :=
  let (neg, s0) :=
    match s with
    | c :: s' => if N.eqb (byte c) 45 then (true, s') else (false, s)
    | [] => (false, s)
    end in
  let (int_digits, s1) :=
    match s0 with
    | c :: s' =>
        if N.eqb (byte c) 48 then ([c], s') else take_digits s0
    | [] => ([], s0)
    end in
  match int_digits with
  | [] => inl DecJSONDecodeError
  | _ =>
      let (frac_digits, s2) :=
        match s1 with
        | c :: s' =>
            if N.eqb (byte c) 46 then
              match take_digits s' with
              | ([], _) => ([], s1)
              | (ds, rest) => (ds, rest)
              end
            else ([], s1)
        | [] => ([], s1)
        end in
      let '(has_exp, exp_value, s3) :=
        match s2 with
        | c :: s' =>
            if N.eqb (byte c) 101 || N.eqb (byte c) 69 then
              let (eneg, s'') :=
                match s' with
                | d :: r =>
                    if N.eqb (byte d) 45 then (true, r)
                    else if N.eqb (byte d) 43 then (false, r)
                    else (false, s')
                | [] => (false, s')
                end in
              match take_digits s'' with
              | ([], _) => (false, 0%Z, s2)
              | (ds, rest) =>
                  (true, if eneg then (- digits_value ds)%Z else digits_value ds,
                   rest)
              end
            else (false, 0%Z, s2)
        | [] => (false, 0%Z, s2)
        end in
      let sign (z : Z) := if neg then (- z)%Z else z in
      match frac_digits, has_exp with
      | [], false =>
          if Nat.ltb 4300 (List.length int_digits) then inl DecValueError
          else inr (PInt (sign (digits_value int_digits)), s3)
      | _, _ =>
          let mantissa := sign (digits_value (int_digits ++ frac_digits)) in
          let e := (exp_value - Z.of_nat (List.length frac_digits))%Z in
          inr (PFloat (FFinite (pow10 e mantissa)), s3)
      end
  end.

Fixpoint strip_prefix (p : string) (s : list ascii) : option (list ascii) :=
  match p with
  | EmptyString => Some s
  | String c p' =>
      match s with
      | c' :: s' => if Ascii.eqb c c' then strip_prefix p' s' else None
      | [] => None
      end
  end.

(** [d[k] = v] *)
Fixpoint dict_set (k : string) (v : pyval) (d : list (string * pyval))
    : list (string * pyval) :=
  match d with
  | [] => [(k, v)]
  | (k', v') :: d' =>
      if String.eqb k k' then (k, v) :: d' else (k', v') :: dict_set k v d'
  end.

Definition literal (word : string) (v : pyval) (s : list ascii)
    : option (decode_error + (pyval * list ascii)) :=
  match strip_prefix word s with
  | Some rest => Some (inr (v, rest))
  | None => None
  end.

(** One value, with what follows it. *)
Fixpoint scan_value (fuel : nat) (s : list ascii)
    : decode_error + (pyval * list ascii) :=
  match fuel with
  | O => inl DecRecursionError
  | S fuel' =>
      match s with
      | [] => inl DecJSONDecodeError
      | c :: s1 =>
          let b := byte c in
          if N.eqb b 34 then
            match scan_string None s1 with
            | Some (t, rest) => inr (PStr t, rest)
            | None => inl DecJSONDecodeError
            end
          else if N.eqb b 123 then
            match skip_ws s1 with
            | c' :: s2 =>
                if N.eqb (byte c') 125 then inr (PDict [], s2)
                else scan_members fuel' [] (c' :: s2)
            | [] => inl DecJSONDecodeError
            end
          else if N.eqb b 91 then
            match skip_ws s1 with
            | c' :: s2 =>
                if N.eqb (byte c') 93 then inr (PList [], s2)
                else scan_items fuel' [] (c' :: s2)
            | [] => inl DecJSONDecodeError
            end
          else
            match literal "null" PNone s with
            | Some r => r
            | None =>
            match literal "true" (PBool true) s with
            | Some r => r
            | None =>
            match literal "false" (PBool false) s with
            | Some r => r
            | None =>
            match literal "NaN" (PFloat FNaN) s with
            | Some r => r
            | None =>
            match literal "Infinity" (PFloat (FInf false)) s with
            | Some r => r
            | None =>
            match literal "-Infinity" (PFloat (FInf true)) s with
            | Some r => r
            | None => scan_number s
            end end end end end end
      end
  end
(** The items of a list from the first one on; [acc] holds those read. *)
with scan_items (fuel : nat) (acc : list pyval) (s : list ascii)
    : decode_error + (pyval * list ascii) :=
  match fuel with
  | O => inl DecRecursionError
  | S fuel' =>
      match scan_value fuel' s with
      | inl e => inl e
      | inr (v, rest) =>
          match skip_ws rest with
          | c :: s1 =>
              if N.eqb (byte c) 44 then scan_items fuel' (acc ++ [v]) (skip_ws s1)
              else if N.eqb (byte c) 93 then inr (PList (acc ++ [v]), s1)
              else inl DecJSONDecodeError
          | [] => inl DecJSONDecodeError
          end
      end
  end
(** The members of an object from the first key on. *)
with scan_members (fuel : nat) (acc : list (string * pyval)) (s : list ascii)
    : decode_error + (pyval * list ascii) :=
  match fuel with
  | O => inl DecRecursionError
  | S fuel' =>
      match s with
      | c :: s1 =>
          if N.eqb (byte c) 34 then
            match scan_string None s1 with
            | Some (k, rest) =>
                match skip_ws rest with
                | c' :: s2 =>
                    if N.eqb (byte c') 58 then
                      match scan_value fuel' (skip_ws s2) with
                      | inl e => inl e
                      | inr (v, rest') =>
                          match skip_ws rest' with
                          | c'' :: s3 =>
                              if N.eqb (byte c'') 44 then
                                scan_members fuel' (dict_set k v acc) (skip_ws s3)
                              else if N.eqb (byte c'') 125 then
                                inr (PDict (dict_set k v acc), s3)
                              else inl DecJSONDecodeError
                          | [] => inl DecJSONDecodeError
                          end
                      end
                    else inl DecJSONDecodeError
                | [] => inl DecJSONDecodeError
                end
            | None => inl DecJSONDecodeError
            end
          else inl DecJSONDecodeError
      | [] => inl DecJSONDecodeError
      end
  end.

(** [json.load] on a file holding [text]: decode the bytes, read one value,
    nothing but white space may follow. *)
Definition loads (text : string) : decode_error + pyval :=
  let s := list_ascii_of_string text in
  if negb (utf8_valid s) then inl DecUnicodeDecodeError
  else
    match scan_value (2 * List.length s + 4) (skip_ws s) with
    | inl e => inl e
    | inr (v, rest) =>
        match skip_ws rest with
        | [] => inr v
        | _ :: _ => inl DecJSONDecodeError
        end
    end.

Definition codec : JsonCodec :=
  {| json_encode := dumps; json_decode := loads |}.

End MiniJson.

(** ** Notions used in the statements *)

(** The temporary file of [save_checkpoint]:
    [get_checkpoint_path(run_dir).with_suffix(".tmp")]. *)
Definition get_temp_path (run_dir : Path) : Path :=
  joinpath run_dir "checkpoint.tmp".

(** The validation of lines 109-123 as a predicate on the decoded value. *)
Definition valid_checkpoint (ck : pyval) : bool :=
  match ck with
  | PDict d =>
      py_eq_int (match dict_get "version" d with Some v => v | None => PNone end)
                CHECKPOINT_VERSION
      && dict_mem "scan_config" d && dict_mem "agent_state" d
  | _ => false
  end.

(** [raises_within C m]: the exceptions that leave [m] are of a class
    accepted by [C], except for the interruption, which only an armed fuse
    produces; and [m] does not arm the fuse. *)
Definition raises_within {A} (C : exn -> bool) (m : M A) : Prop :=
  forall w,
    (fuse w = None -> fuse (snd (m w)) = None)
    /\ (forall e, fst (m w) = Raise e ->
        C e = true \/ (e = KeyboardInterrupt /\ fuse w <> None)).

(** [frame p m]: [m] leaves the node at [p] and the access rights as they
    are. *)
Definition frame {A} (p : Path) (m : M A) : Prop :=
  forall w,
    fs (snd (m w)) !! p = fs w !! p /\ denied (snd (m w)) = denied w.

(** [frame_on_raise p m]: the same, for the runs of [m] that raise. *)
Definition frame_on_raise {A} (p : Path) (m : M A) : Prop :=
  forall w e,
    fst (m w) = Raise e ->
    fs (snd (m w)) !! p = fs w !! p /\ denied (snd (m w)) = denied w.

(** The primitives raise [OSError] at most. *)
Definition os_error (e : exn) : bool := exn_eqb e OSError.

(** The exception classes of the [except] clause of [save_checkpoint]. *)
Definition save_caught : exn -> bool :=
  catches [OSError; RuntimeError; TypeError; ValueError].

(** ** A scenario

    A run directory as the agent driver has it, an agent state at its fifth
    iteration, and checkpoint files as [json.dump] writes them. *)
Module Scenario.

Definition run_dir : Path := ["strix_runs"; "my-scan"].

(** A device holding the run directory and nothing in it. *)
Definition fresh : World :=
  mkWorld {[ ["strix_runs"] := Dir; run_dir := Dir ]} ∅ 4096 None
          "2026-01-01T00:00:00+00:00" [].

(** The same device with a checkpoint file holding the text of [v]. *)
Definition with_checkpoint (v : pyval) : World :=
  set_fs fresh
    (<[get_checkpoint_path run_dir := File (fst (MiniJson.dumps v))]> (fs fresh)).

Definition snapshot : pyval :=
  PDict [("iteration", PInt 5); ("completed", PBool false)].

Definition agent : AgentState :=
  {| model_dump := Some (Ok snapshot); iteration := Some (PInt 5) |}.

(** An object without the attributes of an agent state. *)
Definition not_an_agent : AgentState :=
  {| model_dump := None; iteration := None |}.

(** An agent state that fails to serialize. *)
Definition unserializable_agent : AgentState :=
  {| model_dump := Some (Raise ValueError); iteration := Some (PInt 5) |}.

Definition config : pyval := PDict [("targets", PList [PStr "a.com"])].
Definition other_config : list (string * pyval) :=
  [("targets", PList [PStr "b.com"])].

(** A configuration whose targets are a set, which json does not write. *)
Definition set_config : pyval := PDict [("targets", PSet [PStr "a.com"])].

Definition checkpoint (version : Z) (scan_config agent_state : pyval) : pyval :=
  PDict [("version", PInt version);
         ("created_at", PStr "2025-12-31T23:00:00+00:00");
         ("scan_config", scan_config);
         ("agent_state", agent_state);
         ("tracer_data", PDict [])].

Definition running : pyval := checkpoint 1 config snapshot.
Definition completed : pyval :=
  checkpoint 1 config (PDict [("iteration", PInt 9); ("completed", PBool true)]).
Definition bare : pyval := checkpoint 1 (PDict []) (PDict []).
Definition odd : pyval := checkpoint 1 (PDict []) (PStr "done").

(** The device of [with_checkpoint running], the process being interrupted
    after forty steps. *)
Definition interrupted : World := set_fuse (with_checkpoint running) (Some 40).

End Scenario.

(** ** Further notions used in the statements *)

(** [preserves f m]: no run of [m] changes what [f] reads of the world. *)
Definition preserves {A X} (f : World -> X) (m : M A) : Prop :=
  forall w, f (snd (m w)) = f w.

(** The first [n] characters of a text. *)
Definition text_prefix (n : nat) (s : string) : string := String.substring 0 n s.

(** ** Further scenarios

    Variants of the scenario: a second run directory, a run directory that
    was never created, the agent one iteration later, and a device with
    little room left. *)
Module Variants.
Import Scenario.

Definition other_dir : Path := ["strix_runs"; "other-scan"].
Definition missing_dir : Path := ["strix_runs"; "gone"].

Definition later_snapshot : pyval :=
  PDict [("iteration", PInt 6); ("completed", PBool false)].

Definition later_agent : AgentState :=
  {| model_dump := Some (Ok later_snapshot); iteration := Some (PInt 6) |}.

Definition later_config : pyval :=
  PDict [("targets", PList [PStr "a.com"; PStr "b.com"])].

(** The text [json.dump] writes for a record built on the fresh device. *)
Definition record_text (scan_config snapshot tracer_data : pyval) : string :=
  fst (MiniJson.dumps
         (build_checkpoint (clock fresh) scan_config snapshot tracer_data)).

(** The fresh device with room for sixty-four bytes. *)
Definition cramped : World := set_space fresh 64.

End Variants.

(** ** subdomain_recon_manager.py: hosts counted by status code

    [_get_status_breakdown] (lines 277-283).  The hosts are the records
    httpx printed, one JSON value each; the breakdown is a dict from text
    to int, kept in insertion order. *)

(** [d.get(k, default)] and [d[k] = n] on a dict of counts. *)
Fixpoint counts_get (k : string) (d : list (string * Z)) (default : Z) : Z :=
  match d with
  | [] => default
  | (k', n) :: d' => if String.eqb k k' then n else counts_get k d' default
  end.

Fixpoint counts_set (k : string) (n : Z) (d : list (string * Z))
    : list (string * Z) :=
  match d with
  | [] => [(k, n)]
  | (k', n') :: d' =>
      if String.eqb k k' then (k', n) :: d' else (k', n') :: counts_set k n d'
  end.

Section StatusBreakdown.

(** [str] on a value that is not a str: the text Python prints for it, or
    the exception it raises (an int beyond the digit limit). *)
Variable str_other : pyval -> result string.

(** [str(v)]: a str is its own text. *)
Definition py_str (v : pyval) : result string :=
  match v with
  | PStr s => Ok s
  | _ => str_other v
  end.

(** The loop of lines 280-282 on the hosts left, from the breakdown so far. *)
Fixpoint count_hosts (hosts : list pyval) (breakdown : list (string * Z))
    : result (list (string * Z)) :=
  match hosts with
  | [] => Ok breakdown
  | host :: rest =>
      match py_get host "status_code" (PStr "unknown") with
      | Raise e => Raise e
      | Ok code =>
          match py_str code with
          | Raise e => Raise e
          | Ok key =>
              count_hosts rest
                (counts_set key (counts_get key breakdown 0 + 1) breakdown)
          end
      end
  end.

Definition _get_status_breakdown (hosts : list pyval)
    : result (list (string * Z)) :=
  count_hosts hosts [].

(** The key a host is counted under: the text of its status code,
    ["unknown"] when the record has none; a value that is no record, or
    whose status code has no text, has no key. *)
Definition status_key (host : pyval) : option string :=
  match host with
  | PDict d =>
      match dict_get "status_code" d with
      | Some code =>
          match py_str code with Ok key => Some key | Raise _ => None end
      | None => Some "unknown"
      end
  | _ => None
  end.

Definition has_key (k : string) (host : pyval) : bool :=
  match status_key host with
  | Some key => String.eqb key k
  | None => false
  end.

(** The number of hosts counted under [k]. *)
Definition hosts_with (k : string) (hosts : list pyval) : nat :=
  List.length (List.filter (has_key k) hosts).

End StatusBreakdown.

(** The sum of the counts of a breakdown. *)
Definition counts_total (d : list (string * Z)) : Z :=
  List.fold_right Z.add 0%Z (List.map snd d).

(** * Properties *)

(** Case analysis on the next test the program makes: a [match] whose
    scrutinee is not itself a [match]. *)
Ltac next_test :=
  match goal with
  | |- context [match ?x with _ => _ end] =>
      lazymatch x with
      | context [match _ with _ => _ end] => fail
      | _ => destruct x eqn:?
      end
  | H : context [match ?x with _ => _ end] |- _ =>
      lazymatch x with
      | context [match _ with _ => _ end] => fail
      | _ => destruct x eqn:?
      end
  end.

Ltac run_step :=
  match goal with
  | H : context [match ?x with _ => _ end] |- _ => destruct x eqn:?
  | |- context [match ?x with _ => _ end] => destruct x eqn:?
  end; simplify_eq/=.

(** ** Paths *)

Lemma with_suffix_checkpoint (run_dir : Path) :
  with_suffix (get_checkpoint_path run_dir) ".tmp" = Ok (get_temp_path run_dir).
Proof.
  unfold with_suffix, get_checkpoint_path, get_temp_path, joinpath,
    path_name, path_parent.
  rewrite List.last_last, List.removelast_last. reflexivity.
Qed.

Lemma temp_path_fresh (run_dir : Path) :
  get_temp_path run_dir <> get_checkpoint_path run_dir.
Proof.
  unfold get_temp_path, get_checkpoint_path, joinpath. intros H.
  apply app_inj_tail in H. destruct H as [_ H]. discriminate H.
Qed.

Lemma parent_checkpoint_path (run_dir : Path) :
  path_parent (get_checkpoint_path run_dir) = run_dir.
Proof. apply List.removelast_last. Qed.

Lemma parent_temp_path (run_dir : Path) :
  path_parent (get_temp_path run_dir) = run_dir.
Proof. apply List.removelast_last. Qed.

(** ** What [load_checkpoint] accepts *)

Section LoadFacts.

Variable json : JsonCodec.

Lemma load_checkpoint_Some run_dir w ck w1 :
  load_checkpoint json run_dir w = (Ok (Some ck), w1) ->
  exists text,
    fs w !! get_checkpoint_path run_dir = Some (File text)
    /\ json_decode json text = inr ck
    /\ valid_checkpoint ck = true
    /\ fs w1 = fs w.
Proof.
  intros H.
  cbv beta iota zeta delta [load_checkpoint json_load try_except bind ret raise lift
    logger path_exists read_text tick py_get missing_fields py_in] in H.
  unfold valid_checkpoint.
  repeat run_step;
    repeat match goal with
           | H : negb _ = false |- _ => apply negb_false_iff in H
           end;
    eexists; repeat split; eauto; simpl;
    repeat match goal with H : _ = _ |- _ => rewrite H end; reflexivity.
Qed.


(** Its result is a function of the checkpoint file, of the access rights
    and of the fuse. *)
Lemma load_checkpoint_depends run_dir w1 w2 :
  fs w1 !! get_checkpoint_path run_dir = fs w2 !! get_checkpoint_path run_dir ->
  denied w1 = denied w2 ->
  fuse w1 = fuse w2 ->
  fst (load_checkpoint json run_dir w1) = fst (load_checkpoint json run_dir w2).
Proof.
  intros Hfs Hden Hfuse.
  cbv beta iota zeta delta [load_checkpoint json_load try_except bind ret raise lift
    logger path_exists read_text tick].
  repeat (simpl; rewrite ?Hfuse, ?Hfs, ?Hden;
          first [ reflexivity | congruence
                | next_test ]).
Qed.

(** On a readable file that decodes to an object, an uninterrupted load is
    the validation of lines 109-123. *)
Lemma load_checkpoint_object run_dir w text d :
  fuse w = None ->
  get_checkpoint_path run_dir ∉ denied w ->
  fs w !! get_checkpoint_path run_dir = Some (File text) ->
  json_decode json text = inr (PDict d) ->
  fst (load_checkpoint json run_dir w) =
    Ok (if valid_checkpoint (PDict d) then Some (PDict d) else None).
Proof.
  intros Hfuse Hden Hfs Hdec.
  cbv beta iota zeta delta [load_checkpoint json_load try_except bind ret raise lift
    logger path_exists read_text tick valid_checkpoint py_get missing_fields
    py_in].
  apply (bool_decide_eq_false_2 _) in Hden.
  repeat (simpl; rewrite ?Hfuse, ?Hfs, ?Hden, ?Hdec).
  destruct (py_eq_int _ _); simpl; [|reflexivity].
  destruct (dict_mem "scan_config" d), (dict_mem "agent_state" d); reflexivity.
Qed.

(** A file that decodes to anything but an object makes it raise. *)
Lemma load_checkpoint_not_object run_dir w text v :
  fuse w = None ->
  get_checkpoint_path run_dir ∉ denied w ->
  fs w !! get_checkpoint_path run_dir = Some (File text) ->
  json_decode json text = inr v ->
  (forall d, v <> PDict d) ->
  fst (load_checkpoint json run_dir w) = Raise AttributeError.
Proof.
  intros Hfuse Hden Hfs Hdec Hv.
  cbv beta iota zeta delta [load_checkpoint json_load try_except bind ret raise lift
    logger path_exists read_text tick valid_checkpoint py_get missing_fields
    py_in].
  apply (bool_decide_eq_false_2 _) in Hden.
  repeat (simpl; rewrite ?Hfuse, ?Hfs, ?Hden, ?Hdec).
  destruct v; try reflexivity. exfalso; eapply Hv; reflexivity.
Qed.

End LoadFacts.

(** ** What [can_resume] decides *)

Section ResumeFacts.

Variable json : JsonCodec.

Lemma valid_checkpoint_truthy ck :
  valid_checkpoint ck = true -> py_truthy ck = true.
Proof.
  destruct ck as [| | | | | | | |d]; try discriminate.
  destruct d; [discriminate | reflexivity].
Qed.

(** With a checkpoint on disk that [load_checkpoint] accepts, [can_resume]
    is the compatibility check of lines 148-167 on it. *)
Lemma can_resume_loaded run_dir cur w ck w1 :
  load_checkpoint json run_dir w = (Ok (Some ck), w1) ->
  can_resume json run_dir cur w = check_compatible ck cur w1.
Proof.
  intros Hload. unfold can_resume, bind. rewrite Hload.
  apply load_checkpoint_Some in Hload as (text & _ & _ & Hvalid & _).
  rewrite (valid_checkpoint_truthy _ Hvalid). reflexivity.
Qed.

Lemma can_resume_not_loaded run_dir cur w w1 :
  load_checkpoint json run_dir w = (Ok None, w1) ->
  can_resume json run_dir cur w = (Ok false, w1).
Proof. intros Hload. unfold can_resume, bind. rewrite Hload. reflexivity. Qed.

Lemma check_compatible_completed ck cur w a c :
  py_get ck "agent_state" (PDict []) = Ok a ->
  py_get a "completed" (PBool false) = Ok c ->
  py_truthy c = true ->
  fst (check_compatible ck cur w) = Ok false.
Proof.
  intros Ha Hc Ht. unfold check_compatible, bind, lift, logger, ret.
  rewrite Ha, Hc, Ht. reflexivity.
Qed.

Lemma check_compatible_counts ck cur w a c s ts tc n m :
  py_get ck "agent_state" (PDict []) = Ok a ->
  py_get a "completed" (PBool false) = Ok c ->
  py_truthy c = false ->
  py_get ck "scan_config" (PDict []) = Ok s ->
  py_get s "targets" (PList []) = Ok ts ->
  py_get cur "targets" (PList []) = Ok tc ->
  py_len ts = Ok n ->
  py_len tc = Ok m ->
  fst (check_compatible ck cur w) = Ok (Nat.eqb n m).
Proof.
  intros Ha Hc Ht Hs Hts Htc Hn Hm.
  unfold check_compatible, bind, lift, logger, ret.
  rewrite Ha, Hc, Ht, Hs, Hts, Htc, Hn, Hm.
  destruct (Nat.eqb n m); reflexivity.
Qed.

End ResumeFacts.

(** C7.  A checkpoint that [load_checkpoint] accepts and whose agent state
    has [completed = true] is never resumed, whatever the current scan
    configuration is. *)
Theorem can_resume_completed_run (json : JsonCodec) (run_dir : Path)
    (current_scan_config : pyval) (w w1 : World) (ck : pyval)
    (agent_state_data : list (string * pyval)) :
  load_checkpoint json run_dir w = (Ok (Some ck), w1) ->
  py_get ck "agent_state" (PDict []) = Ok (PDict agent_state_data) ->
  dict_get "completed" agent_state_data = Some (PBool true) ->
  fst (can_resume json run_dir current_scan_config w) = Ok false.
Proof.
  intros Hload Ha Hc.
  rewrite (can_resume_loaded _ _ _ _ _ _ Hload).
  eapply check_compatible_completed; [exact Ha | simpl; rewrite Hc; reflexivity
                                     | reflexivity].
Qed.

(** C8.  For a checkpoint that [load_checkpoint] accepts and that is not
    completed, with lists of targets in the saved and in the current
    configuration, [can_resume] is true exactly when the two lists have the
    same length; the targets themselves are not compared. *)
Theorem can_resume_target_count (json : JsonCodec) (run_dir : Path)
    (w w1 : World) (ck : pyval)
    (agent_state_data saved_config current_scan_config : list (string * pyval))
    (completed : pyval) (saved_targets current_targets : list pyval) :
  load_checkpoint json run_dir w = (Ok (Some ck), w1) ->
  py_get ck "agent_state" (PDict []) = Ok (PDict agent_state_data) ->
  py_get (PDict agent_state_data) "completed" (PBool false) = Ok completed ->
  py_truthy completed = false ->
  py_get ck "scan_config" (PDict []) = Ok (PDict saved_config) ->
  dict_get "targets" saved_config = Some (PList saved_targets) ->
  dict_get "targets" current_scan_config = Some (PList current_targets) ->
  fst (can_resume json run_dir (PDict current_scan_config) w)
  = Ok (Nat.eqb (List.length saved_targets) (List.length current_targets)).
Proof.
  intros Hload Ha Hc Ht Hs Hts Htc.
  rewrite (can_resume_loaded _ _ _ _ _ _ Hload).
  eapply check_compatible_counts;
    [exact Ha | exact Hc | exact Ht | exact Hs
    | simpl; rewrite Hts; reflexivity | simpl; rewrite Htc; reflexivity
    | reflexivity | reflexivity].
Qed.

(** C10.  Defaults of [can_resume]: an agent state without [completed] is
    not completed, and a configuration without [targets] has no target.
    With both configurations lacking [targets] the scan is resumable. *)
Theorem can_resume_defaults (json : JsonCodec) (run_dir : Path)
    (w w1 : World) (ck : pyval)
    (agent_state_data saved_config current_scan_config : list (string * pyval)) :
  load_checkpoint json run_dir w = (Ok (Some ck), w1) ->
  py_get ck "agent_state" (PDict []) = Ok (PDict agent_state_data) ->
  dict_get "completed" agent_state_data = None ->
  py_get ck "scan_config" (PDict []) = Ok (PDict saved_config) ->
  let resumable :=
    fst (can_resume json run_dir (PDict current_scan_config) w) in
  (dict_get "targets" saved_config = None ->
   dict_get "targets" current_scan_config = None ->
   resumable = Ok true)
  /\ (forall current_targets,
       dict_get "targets" saved_config = None ->
       dict_get "targets" current_scan_config = Some (PList current_targets) ->
       resumable = Ok (Nat.eqb 0 (List.length current_targets)))
  /\ (forall saved_targets,
       dict_get "targets" saved_config = Some (PList saved_targets) ->
       dict_get "targets" current_scan_config = None ->
       resumable = Ok (Nat.eqb (List.length saved_targets) 0))
  /\ (forall saved_targets current_targets,
       dict_get "targets" saved_config = Some (PList saved_targets) ->
       dict_get "targets" current_scan_config = Some (PList current_targets) ->
       resumable
       = Ok (Nat.eqb (List.length saved_targets) (List.length current_targets))).
Proof.
  intros Hload Ha Hc Hs resumable. subst resumable.
  rewrite (can_resume_loaded _ _ _ _ _ _ Hload).
  assert (Hcompleted :
    py_get (PDict agent_state_data) "completed" (PBool false) = Ok (PBool false))
    by (simpl; rewrite Hc; reflexivity).
  repeat split; intros;
    (etransitivity;
     [ eapply check_compatible_counts;
       [exact Ha | exact Hcompleted | reflexivity | exact Hs
       | simpl; rewrite H; reflexivity | simpl; rewrite H0; reflexivity
       | reflexivity | reflexivity]
     | reflexivity ]).
Qed.

(** C5, as amended.  When the checkpoint that [load_checkpoint] accepts
    holds mappings under [agent_state] and [scan_config], the current
    configuration is a mapping, and the two [targets] values (an empty list
    when absent) have a length, [can_resume] returns a boolean. *)
Theorem can_resume_returns_bool (json : JsonCodec) (run_dir : Path)
    (w w1 : World) (ck : pyval)
    (agent_state_data saved_config current_scan_config : list (string * pyval))
    (saved_targets current_targets : pyval) (n m : nat) :
  load_checkpoint json run_dir w = (Ok (Some ck), w1) ->
  py_get ck "agent_state" (PDict []) = Ok (PDict agent_state_data) ->
  py_get ck "scan_config" (PDict []) = Ok (PDict saved_config) ->
  py_get (PDict saved_config) "targets" (PList []) = Ok saved_targets ->
  py_get (PDict current_scan_config) "targets" (PList []) = Ok current_targets ->
  py_len saved_targets = Ok n ->
  py_len current_targets = Ok m ->
  exists b : bool,
    fst (can_resume json run_dir (PDict current_scan_config) w) = Ok b.
Proof.
  intros Hload Ha Hs Hts Htc Hn Hm.
  rewrite (can_resume_loaded _ _ _ _ _ _ Hload).
  destruct (py_truthy
              (match dict_get "completed" agent_state_data with
               | Some x => x | None => PBool false end)) eqn:Hc.
  - exists false. eapply check_compatible_completed; [exact Ha | reflexivity | exact Hc].
  - exists (Nat.eqb n m).
    eapply check_compatible_counts;
      [exact Ha | reflexivity | exact Hc | exact Hs | exact Hts | exact Htc
      | exact Hn | exact Hm].
Qed.

(** What compares equal to the schema version: the integer 1, and the two
    other numbers Python's [==] identifies with it, [True] and [1.0]. *)
Lemma py_eq_int_version v :
  py_eq_int v CHECKPOINT_VERSION = true <->
  v = PInt 1 \/ v = PBool true
  \/ exists q, v = PFloat (FFinite q) /\ Qeq_bool q (inject_Z 1) = true.
Proof.
  split.
  - destruct v as [| [|] | n | [q| |] | | | | |]; simpl; try discriminate.
    + auto.
    + intros H. apply Z.eqb_eq in H. subst n. auto.
    + intros H. right. right. exists q. auto.
  - intros [->|[->|(q & -> & H)]]; auto.
Qed.


(** ** Effects of the programs *)

Section Effects.

Context {A B : Type}.

Lemma raises_within_ret C (a : A) : raises_within C (ret a).
Proof. intros w; split; [auto | discriminate]. Qed.

Lemma raises_within_raise (C : exn -> bool) e :
  C e = true -> raises_within C (@raise A e).
Proof. intros He w; split; [auto|]. intros e' [= <-]. auto. Qed.

Lemma raises_within_lift (C : exn -> bool) (r : result A) :
  (forall e, r = Raise e -> C e = true) -> raises_within C (lift r).
Proof. intros Hr w; split; [auto|]. simpl. auto. Qed.

Lemma raises_within_bind C (m : M A) (k : A -> M B) :
  raises_within C m -> (forall a, raises_within C (k a)) ->
  raises_within C (bind m k).
Proof.
  intros Hm Hk w. unfold bind.
  destruct (Hm w) as [Hfuse Hraise].
  destruct (m w) as [[a|e] w1]; simpl in *.
  - destruct (Hk a w1) as [Hfuse' Hraise']. split; [auto|].
    intros e He. destruct (Hraise' e He) as [?|[-> Hw1]]; [auto|].
    right. split; [reflexivity|]. intros Hw; apply Hw1; auto.
  - split; [auto|]. intros e' [= <-]. auto.
Qed.

Lemma raises_within_try_except (C C' : exn -> bool) (body : M A) classes
    handler :
  raises_within C body ->
  (forall e, C e = true -> catches classes e = true) ->
  (forall e, raises_within C' (handler e)) ->
  raises_within C' (try_except body classes handler).
Proof.
  intros Hbody Hcatch Hhandler w. unfold try_except.
  destruct (Hbody w) as [Hfuse Hraise].
  destruct (body w) as [[a|e] w1]; simpl in *.
  - split; [auto | discriminate].
  - destruct (catches classes e) eqn:Hc.
    + destruct (Hhandler e w1) as [Hfuse' Hraise']. split; [auto|].
      intros e' He'. destruct (Hraise' e' He') as [?|[-> Hw1]]; [auto|].
      right. split; [reflexivity|]. intros Hw; apply Hw1; auto.
    + split; [auto|]. intros e' [= <-].
      destruct (Hraise e eq_refl) as [He|?]; [|auto].
      rewrite (Hcatch e He) in Hc. discriminate.
Qed.

Lemma frame_ret p (a : A) : frame p (ret a).
Proof. intros w; auto. Qed.

Lemma frame_raise p e : frame p (@raise A e).
Proof. intros w; auto. Qed.

Lemma frame_lift p (r : result A) : frame p (lift r).
Proof. intros w; auto. Qed.

Lemma frame_bind p (m : M A) (k : A -> M B) :
  frame p m -> (forall a, frame p (k a)) -> frame p (bind m k).
Proof.
  intros Hm Hk w. unfold bind. destruct (Hm w) as [Hfs Hden].
  destruct (m w) as [[a|e] w1]; simpl in *; [|auto].
  destruct (Hk a w1) as [Hfs' Hden']. split; congruence.
Qed.

Lemma frame_try_except p (body : M A) classes handler :
  frame p body -> (forall e, frame p (handler e)) ->
  frame p (try_except body classes handler).
Proof.
  intros Hm Hh w. unfold try_except. destruct (Hm w) as [Hfs Hden].
  destruct (body w) as [[a|e] w1]; simpl in *; [auto|].
  destruct (catches classes e); [|auto].
  destruct (Hh e w1) as [Hfs' Hden']. split; congruence.
Qed.

Lemma frame_on_raise_frame p (m : M A) : frame p m -> frame_on_raise p m.
Proof. intros Hm w e _. apply Hm. Qed.

Lemma frame_on_raise_bind p (m : M A) (k : A -> M B) :
  frame p m -> (forall a, frame_on_raise p (k a)) ->
  frame_on_raise p (bind m k).
Proof.
  intros Hm Hk w e. unfold bind. destruct (Hm w) as [Hfs Hden].
  destruct (m w) as [[a|e'] w1]; simpl in *; [|auto].
  intros He. destruct (Hk a w1 e He) as [Hfs' Hden']. split; congruence.
Qed.

End Effects.

Lemma raises_within_weaken {A} (C C' : exn -> bool) (m : M A) :
  (forall e, C e = true -> C' e = true) ->
  raises_within C m -> raises_within C' m.
Proof.
  intros HC Hm w. destruct (Hm w) as [Hfuse Hraise]. split; [auto|].
  intros e He. destruct (Hraise e He); auto.
Qed.

Lemma raises_within_tick C : raises_within C tick.
Proof.
  intros w. unfold tick. destruct (fuse w) as [[|n]|] eqn:Hf; simpl.
  - split; [discriminate|]. intros e [= <-]. right. split; congruence.
  - split; discriminate.
  - split; [auto | discriminate].
Qed.

Lemma frame_tick p : frame p tick.
Proof. intros w. unfold tick. destruct (fuse w) as [[|n]|]; auto. Qed.

Lemma raises_within_logger C l m : raises_within C (logger l m).
Proof. intros w; split; [auto | discriminate]. Qed.

Lemma frame_logger p l m : frame p (logger l m).
Proof. intros w; auto. Qed.

(** A primitive is one step of the fuse and a test of the world. *)
Ltac prim_raises :=
  apply raises_within_bind; [apply raises_within_tick|];
  intros _ w; split; [intros Hf|intros e He]; simpl in *;
  repeat next_test; simpl in *; simplify_eq; auto.

Lemma raises_within_path_exists p : raises_within os_error (path_exists p).
Proof. unfold path_exists. prim_raises. Qed.

Lemma raises_within_open_write p : raises_within os_error (open_write p).
Proof. unfold open_write. prim_raises. Qed.

Lemma raises_within_write_byte p c : raises_within os_error (write_byte p c).
Proof. unfold write_byte. prim_raises. Qed.

Lemma raises_within_read_text p : raises_within os_error (read_text p).
Proof. unfold read_text. prim_raises. Qed.

Lemma raises_within_replace src dst : raises_within os_error (replace src dst).
Proof. unfold replace. prim_raises. Qed.

Lemma raises_within_unlink p : raises_within os_error (unlink p).
Proof. unfold unlink. prim_raises. Qed.

Lemma raises_within_write_text p s : raises_within os_error (write_text p s).
Proof.
  induction s as [|c s IH]; simpl.
  - apply raises_within_ret.
  - apply raises_within_bind; [apply raises_within_write_byte | auto].
Qed.

Ltac prim_frame :=
  apply frame_bind; [apply frame_tick|];
  intros _ w; simpl; repeat next_test; simpl;
  rewrite ?lookup_insert_ne, ?lookup_delete_ne by congruence; auto.

Lemma frame_path_exists q p : frame q (path_exists p).
Proof. unfold path_exists. prim_frame. Qed.

Lemma frame_read_text q p : frame q (read_text p).
Proof. unfold read_text. prim_frame. Qed.

Lemma frame_open_write q p : q <> p -> frame q (open_write p).
Proof. intros Hq. unfold open_write. prim_frame. Qed.

Lemma frame_write_byte q p c : q <> p -> frame q (write_byte p c).
Proof. intros Hq. unfold write_byte. prim_frame. Qed.

Lemma frame_write_text q p s : q <> p -> frame q (write_text p s).
Proof.
  intros Hq. induction s as [|c s IH]; simpl.
  - apply frame_ret.
  - apply frame_bind; [apply frame_write_byte; exact Hq | auto].
Qed.

Lemma frame_unlink q p : q <> p -> frame q (unlink p).
Proof. intros Hq. unfold unlink. prim_frame. Qed.

(** A rename that fails has moved nothing. *)
Lemma frame_on_raise_replace q src dst : frame_on_raise q (replace src dst).
Proof.
  intros w e. unfold replace, bind, tick.
  destruct (fuse w) as [[|n]|]; simpl; repeat next_test; simpl;
    auto; discriminate.
Qed.

Lemma os_error_save_caught e : os_error e = true -> save_caught e = true.
Proof. destruct e; try discriminate. reflexivity. Qed.

Section SaveFacts.

Variable json : JsonCodec.

Lemma raises_within_json_dump v p :
  raises_within save_caught (json_dump json v p).
Proof.
  unfold json_dump. destruct (json_encode json v) as [text err].
  apply raises_within_bind.
  - eapply raises_within_weaken;
      [apply os_error_save_caught | apply raises_within_write_text].
  - intros _. destruct err as [e|].
    + apply raises_within_raise. destruct e; reflexivity.
    + apply raises_within_ret.
Qed.

Lemma frame_json_dump q v p : q <> p -> frame q (json_dump json v p).
Proof.
  intros Hq. unfold json_dump. destruct (json_encode json v) as [text err].
  apply frame_bind; [apply frame_write_text; exact Hq|].
  intros _. destruct err; [apply frame_raise | apply frame_ret].
Qed.

Lemma bind_lift_ok {A B} (a : A) (k : A -> M B) : bind (lift (Ok a)) k = k a.
Proof. reflexivity. Qed.

(** Up to the rename, a failing save has touched the temporary file only. *)
Lemma frame_on_raise_save_until_rename q run_dir a sc td :
  q <> get_temp_path run_dir ->
  frame_on_raise q (save_until_rename json run_dir a sc td).
Proof.
  intros Hq. unfold save_until_rename.
  apply frame_on_raise_bind; [intros w; auto|]. intros created_at.
  apply frame_on_raise_bind.
  { unfold call_model_dump. destruct (model_dump a);
      [apply frame_lift | apply frame_raise]. }
  intros snapshot.
  rewrite with_suffix_checkpoint, bind_lift_ok.
  apply frame_on_raise_bind; [apply frame_open_write; exact Hq|]. intros _.
  apply frame_on_raise_bind; [apply frame_json_dump; exact Hq|]. intros _.
  apply frame_on_raise_replace.
Qed.

Lemma raises_within_save_until_rename run_dir a sc td r :
  model_dump a = Some r ->
  (forall e, r = Raise e -> save_caught e = true) ->
  raises_within save_caught (save_until_rename json run_dir a sc td).
Proof.
  intros Hdump Hr. unfold save_until_rename.
  apply raises_within_bind; [intros w; split; [auto | discriminate]|].
  intros created_at.
  apply raises_within_bind.
  { unfold call_model_dump. rewrite Hdump. apply raises_within_lift, Hr. }
  intros snapshot.
  rewrite with_suffix_checkpoint, bind_lift_ok.
  apply raises_within_bind.
  { eapply raises_within_weaken;
      [apply os_error_save_caught | apply raises_within_open_write]. }
  intros _.
  apply raises_within_bind; [apply raises_within_json_dump|]. intros _.
  eapply raises_within_weaken;
    [apply os_error_save_caught | apply raises_within_replace].
Qed.

Lemma raises_within_save_checkpoint run_dir a sc td r it :
  model_dump a = Some r ->
  (forall e, r = Raise e -> save_caught e = true) ->
  iteration a = Some it ->
  raises_within (fun _ => false) (save_checkpoint json run_dir a sc td).
Proof.
  intros Hdump Hr Hit. unfold save_checkpoint.
  eapply raises_within_try_except with (C := save_caught).
  - apply raises_within_bind;
      [eapply raises_within_save_until_rename; eassumption|].
    intros _. unfold get_iteration. rewrite Hit.
    apply raises_within_bind;
      [apply raises_within_ret | intros; apply raises_within_logger].
  - auto.
  - intros e. apply raises_within_logger.
Qed.

End SaveFacts.

(** C4, as amended.  For an agent state that has the two attributes the
    module uses, and whose [model_dump] raises nothing outside the classes
    of the [except] clause, [save_checkpoint] returns [None] whatever the
    configuration, the tracer data and the state of the file system; only
    an interruption goes through it. *)
Theorem save_checkpoint_never_raises (json : JsonCodec) (run_dir : Path)
    (agent_state : AgentState) (scan_config tracer_data : pyval) (w : World)
    (dumped : result pyval) (it : pyval) :
  model_dump agent_state = Some dumped ->
  (forall e, dumped = Raise e ->
     catches [OSError; RuntimeError; TypeError; ValueError] e = true) ->
  iteration agent_state = Some it ->
  (fuse w = None ->
   fst (save_checkpoint json run_dir agent_state scan_config tracer_data w)
   = Ok tt)
  /\ (forall e,
       fst (save_checkpoint json run_dir agent_state scan_config tracer_data w)
       = Raise e -> e = KeyboardInterrupt).
Proof.
  intros Hdump Hr Hit.
  destruct (raises_within_save_checkpoint json run_dir agent_state scan_config
              tracer_data dumped it Hdump Hr Hit w) as [_ Hraise].
  split.
  - intros Hfuse.
    destruct (fst (save_checkpoint json run_dir agent_state scan_config
                     tracer_data w)) as [[]|e]; [reflexivity|].
    destruct (Hraise e eq_refl) as [?|[_ ?]]; [discriminate | contradiction].
  - intros e He. destruct (Hraise e He) as [?|[? _]]; [discriminate | assumption].
Qed.

(** C1.  When [save_checkpoint] fails before the rename has taken place
    (the agent state does not serialize, the temporary file cannot be
    opened or written, the rename is refused, the process is interrupted),
    every file but the temporary one is as it was, the checkpoint file in
    particular, and a later [load_checkpoint] returns what it would have
    returned before. *)
Theorem save_failure_keeps_checkpoint (json : JsonCodec) (run_dir : Path)
    (agent_state : AgentState) (scan_config tracer_data : pyval) (w : World)
    (e : exn) :
  fst (save_until_rename json run_dir agent_state scan_config tracer_data w)
  = Raise e ->
  let w' :=
    snd (save_checkpoint json run_dir agent_state scan_config tracer_data w) in
  (forall q, q <> get_temp_path run_dir -> fs w' !! q = fs w !! q)
  /\ fs w' !! get_checkpoint_path run_dir = fs w !! get_checkpoint_path run_dir
  /\ (forall f,
       fst (load_checkpoint json run_dir (set_fuse w' f))
       = fst (load_checkpoint json run_dir (set_fuse w f))).
Proof.
  intros Hfail w'.
  assert (Hframe : forall q, q <> get_temp_path run_dir ->
            fs w' !! q = fs w !! q /\ denied w' = denied w).
  { intros q Hq.
    pose proof (frame_on_raise_save_until_rename json q run_dir agent_state
                  scan_config tracer_data Hq w e Hfail) as [Hfs Hden].
    subst w'. unfold save_checkpoint, try_except, bind.
    destruct (save_until_rename json run_dir agent_state scan_config
                tracer_data w) as [r w1].
    simpl in Hfail, Hfs, Hden. subst r.
    destruct (catches _ e); simpl; auto. }
  pose proof (fun H => proj1 (Hframe (get_checkpoint_path run_dir) H)) as Hck.
  pose proof (fun H => proj2 (Hframe (get_checkpoint_path run_dir) H)) as Hden.
  assert (Hne : get_checkpoint_path run_dir <> get_temp_path run_dir)
    by (intros H; symmetry in H; exact (temp_path_fresh run_dir H)).
  split; [intros q Hq; apply Hframe, Hq|].
  split; [auto|].
  intros f. apply load_checkpoint_depends; simpl; auto.
Qed.

(** ** A save that goes through *)

Lemma append_empty_r s : String.append s "" = s.
Proof.
  induction s as [|c s IH]; [reflexivity|].
  change (String c (String.append s "") = String c s). f_equal. exact IH.
Qed.

Lemma append_snoc old c s :
  String.append (String.append old (String c "")) s
  = String.append old (String c s).
Proof.
  induction old as [|c' old IH]; [reflexivity|].
  change (String c' (String.append (String.append old (String c "")) s)
          = String c' (String.append old (String c s))).
  f_equal. exact IH.
Qed.

Lemma run_dir_not_temp run_dir : run_dir <> get_temp_path run_dir.
Proof.
  unfold get_temp_path, joinpath. intros H.
  apply (f_equal (@List.length string)) in H.
  rewrite List.length_app in H. simpl in H. lia.
Qed.

Lemma write_text_ok p s : forall w old,
  fuse w = None ->
  fs w !! p = Some (File old) ->
  String.length s <= space w ->
  exists w',
    write_text p s w = (Ok tt, w')
    /\ fs w' = <[p := File (String.append old s)]> (fs w)
    /\ denied w' = denied w /\ fuse w' = None /\ clock w' = clock w
    /\ log w' = log w.
Proof.
  induction s as [|c s IH]; intros w old Hfuse Hfs Hspace; simpl.
  - exists w. rewrite append_empty_r, insert_id by exact Hfs. auto 10.
  - simpl in Hspace.
    unfold bind at 1, write_byte, bind, tick. rewrite Hfuse. simpl.
    destruct (space w) as [|n] eqn:Hn; [lia|]. rewrite Hfs.
    match goal with |- context [write_text p s ?w1] =>
      destruct (IH w1 (String.append old (String c ""))) as
        (w' & Hrun & Hfs' & Hden' & Hfuse' & Hclock' & Hlog')
    end; simpl; [assumption | apply lookup_insert_eq | lia |].
    exists w'. rewrite Hrun. simpl in *.
    rewrite Hfs', insert_insert_eq, append_snoc. auto 10.
Qed.

Section RoundTrip.

Variable json : JsonCodec.

Lemma save_until_rename_ok run_dir a sc td w snapshot text :
  fuse w = None ->
  model_dump a = Some (Ok snapshot) ->
  fs w !! run_dir = Some Dir ->
  fs w !! get_checkpoint_path run_dir <> Some Dir ->
  fs w !! get_temp_path run_dir <> Some Dir ->
  get_checkpoint_path run_dir ∉ denied w ->
  get_temp_path run_dir ∉ denied w ->
  json_encode json (build_checkpoint (clock w) sc snapshot td) = (text, None) ->
  String.length text <= space w ->
  exists w',
    save_until_rename json run_dir a sc td w = (Ok tt, w')
    /\ fs w' !! get_checkpoint_path run_dir = Some (File text)
    /\ denied w' = denied w /\ fuse w' = None.
Proof.
  intros Hfuse Hdump Hdir Hck Htmp Hdck Hdtmp Henc Hspace.
  pose proof (temp_path_fresh run_dir) as Hfresh.
  pose proof (run_dir_not_temp run_dir) as Hrd.
  apply (bool_decide_eq_false_2 _) in Hdck, Hdtmp.
  unfold save_until_rename, now_isoformat, call_model_dump.
  rewrite Hdump, with_suffix_checkpoint.
  unfold bind at 1. unfold bind at 1. simpl. rewrite bind_lift_ok.
  (* open the temporary file *)
  unfold bind at 1. unfold open_write, bind at 1, tick.
  rewrite Hfuse, Hdtmp, parent_temp_path, Hdir.
  assert (Hopen :
    match fs w !! get_temp_path run_dir with
    | Some Dir => (Raise OSError, w)
    | _ => (Ok tt, set_fs w (<[get_temp_path run_dir := File ""]> (fs w)))
    end = (Ok tt, set_fs w (<[get_temp_path run_dir := File ""]> (fs w)))).
  { destruct (fs w !! get_temp_path run_dir) as [[|]|]; congruence. }
  rewrite Hopen. clear Hopen.
  (* write the text *)
  unfold json_dump. rewrite Henc. unfold bind at 1, bind at 1.
  destruct (write_text_ok (get_temp_path run_dir) text
              (set_fs w (<[get_temp_path run_dir := File ""]> (fs w))) "")
    as (w2 & Hrun & Hfs2 & Hden2 & Hfuse2 & _);
    [exact Hfuse | apply lookup_insert_eq | exact Hspace |].
  rewrite Hrun. simpl in Hfs2, Hden2. simpl.
  (* rename *)
  unfold replace, bind, tick. rewrite Hfuse2, Hden2, Hdtmp, Hdck. simpl.
  rewrite Hfs2, insert_insert_eq, lookup_insert_eq, parent_checkpoint_path.
  rewrite !lookup_insert_ne by congruence. rewrite Hdir.
  eexists. split.
  - destruct (fs w !! get_checkpoint_path run_dir) as [[|]|]; try congruence;
      reflexivity.
  - simpl. rewrite lookup_insert_eq. auto.
Qed.

End RoundTrip.

(** C2, as amended.  When the run directory exists, neither the checkpoint
    nor the temporary path is a directory or out of reach, the snapshot of
    the agent state, the configuration and the tracer data make a record
    that the json module writes in full and reads back as it was, the
    device has room for the text and nothing interrupts the process,
    [save_checkpoint] followed by [load_checkpoint] returns a checkpoint
    whose [scan_config] is the configuration given and whose [agent_state]
    is the snapshot. *)
Theorem save_then_load (json : JsonCodec) (run_dir : Path)
    (agent_state : AgentState) (scan_config tracer_data : pyval) (w : World)
    (snapshot it : pyval) (text : string) :
  fuse w = None ->
  model_dump agent_state = Some (Ok snapshot) ->
  iteration agent_state = Some it ->
  fs w !! run_dir = Some Dir ->
  fs w !! get_checkpoint_path run_dir <> Some Dir ->
  fs w !! get_temp_path run_dir <> Some Dir ->
  get_checkpoint_path run_dir ∉ denied w ->
  get_temp_path run_dir ∉ denied w ->
  json_encode json (build_checkpoint (clock w) scan_config snapshot tracer_data)
  = (text, None) ->
  json_decode json text
  = inr (build_checkpoint (clock w) scan_config snapshot tracer_data) ->
  String.length text <= space w ->
  exists ck w1,
    save_checkpoint json run_dir agent_state scan_config tracer_data w
    = (Ok tt, w1)
    /\ fst (load_checkpoint json run_dir w1) = Ok (Some ck)
    /\ py_get ck "scan_config" PNone = Ok scan_config
    /\ py_get ck "agent_state" PNone = Ok snapshot.
Proof.
  intros Hfuse Hdump Hit Hdir Hck Htmp Hdck Hdtmp Henc Hdec Hspace.
  destruct (save_until_rename_ok json run_dir agent_state scan_config
              tracer_data w snapshot text)
    as (w' & Hsave & Hfs & Hden & Hfuse'); try assumption.
  exists (build_checkpoint (clock w) scan_config snapshot tracer_data).
  eexists. split; [|split].
  - unfold save_checkpoint, try_except, bind at 1. rewrite Hsave.
    unfold get_iteration. rewrite Hit. reflexivity.
  - etransitivity;
      [ eapply load_checkpoint_object;
        [exact Hfuse' | simpl; rewrite Hden; exact Hdck | exact Hfs
        | exact Hdec]
      | reflexivity ].
  - split; reflexivity.
Qed.

(** ** Deleting *)

Lemma load_checkpoint_absent (json : JsonCodec) run_dir w :
  fuse w = None ->
  fs w !! get_checkpoint_path run_dir = None ->
  fst (load_checkpoint json run_dir w) = Ok None.
Proof.
  intros Hfuse Hfs.
  cbv beta iota zeta delta [load_checkpoint try_except bind ret logger
    path_exists tick].
  rewrite Hfuse. simpl. rewrite Hfs. reflexivity.
Qed.

(** What an uninterrupted [delete_checkpoint] does, by the state of the
    checkpoint path. *)
Lemma delete_checkpoint_run run_dir w :
  fuse w = None ->
  delete_checkpoint run_dir w =
    match fs w !! get_checkpoint_path run_dir with
    | None => (Ok tt, w)
    | Some (File _) =>
        if bool_decide (get_checkpoint_path run_dir ∈ denied w)
        then (Ok tt, add_log w (WARNING, MsgDeleteFailed OSError))
        else (Ok tt,
              add_log (set_fs w (delete (get_checkpoint_path run_dir) (fs w)))
                      (INFO, MsgDeleted))
    | Some Dir => (Ok tt, add_log w (WARNING, MsgDeleteFailed OSError))
    end.
Proof.
  intros Hfuse.
  cbv beta iota zeta delta [delete_checkpoint try_except bind ret logger
    path_exists unlink tick].
  rewrite Hfuse. simpl. rewrite ?Hfuse.
  destruct (fs w !! get_checkpoint_path run_dir) as [[text|]|] eqn:Hfs; simpl;
    rewrite ?Hfuse; simpl; try reflexivity;
    destruct (bool_decide (get_checkpoint_path run_dir ∈ denied w));
    simpl; rewrite ?Hfs; reflexivity.
Qed.

(** C9.  An uninterrupted [delete_checkpoint] never raises, not even when
    the file cannot be removed; it leaves a run directory without
    checkpoint as it is; it removes a checkpoint file the system lets it
    remove, after which [load_checkpoint] finds nothing; and deleting twice
    leaves the same files as deleting once. *)
Theorem delete_checkpoint_idempotent (run_dir : Path) (w : World) :
  fuse w = None ->
  let w1 := snd (delete_checkpoint run_dir w) in
  fst (delete_checkpoint run_dir w) = Ok tt
  /\ (fs w !! get_checkpoint_path run_dir = None -> w1 = w)
  /\ (forall text,
       fs w !! get_checkpoint_path run_dir = Some (File text) ->
       get_checkpoint_path run_dir ∉ denied w ->
       fs w1 = delete (get_checkpoint_path run_dir) (fs w)
       /\ forall json, fst (load_checkpoint json run_dir w1) = Ok None)
  /\ fst (delete_checkpoint run_dir w1) = Ok tt
  /\ fs (snd (delete_checkpoint run_dir w1)) = fs w1.
Proof.
  intros Hfuse w1. subst w1.
  rewrite (delete_checkpoint_run run_dir w Hfuse).
  destruct (fs w !! get_checkpoint_path run_dir) as [[text|]|] eqn:Hfs.
  - destruct (bool_decide (get_checkpoint_path run_dir ∈ denied w)) eqn:Hden;
      simpl.
    + split; [reflexivity|]. split; [discriminate|]. split.
      { intros text' _ Hnot. apply bool_decide_eq_true_1 in Hden.
        contradiction. }
      rewrite delete_checkpoint_run by exact Hfuse. simpl.
      rewrite Hfs, Hden. auto.
    + split; [reflexivity|]. split; [discriminate|]. split.
      { intros text' _ _. split; [reflexivity|]. intros json.
        apply load_checkpoint_absent; [exact Hfuse|].
        simpl. apply lookup_delete_eq. }
      rewrite delete_checkpoint_run by exact Hfuse. simpl.
      rewrite lookup_delete_eq. auto.
  - simpl. split; [reflexivity|]. split; [discriminate|].
    split; [discriminate|].
    rewrite delete_checkpoint_run by exact Hfuse. simpl. rewrite Hfs. auto.
  - simpl. split; [reflexivity|]. split; [reflexivity|].
    split; [discriminate|].
    rewrite delete_checkpoint_run by exact Hfuse. rewrite Hfs. auto.
Qed.

(** ** The scenario, run *)

Import Scenario.

(** C1 on the interrupted device: the save stops while the temporary file
    is being written, and the checkpoint in place is the one a load returns. *)
Lemma save_failure_keeps_checkpoint_witness :
  fst (save_until_rename MiniJson.codec run_dir agent config PNone interrupted)
  = Raise KeyboardInterrupt
  /\ fst (load_checkpoint MiniJson.codec run_dir
            (set_fuse
               (snd (save_checkpoint MiniJson.codec run_dir agent config PNone
                       interrupted)) None))
     = fst (load_checkpoint MiniJson.codec run_dir (set_fuse interrupted None)).
Proof.
  split; [vm_compute; reflexivity|].
  apply (save_failure_keeps_checkpoint MiniJson.codec run_dir agent config PNone
           interrupted KeyboardInterrupt).
  vm_compute; reflexivity.
Defined.

(** C2: a configuration whose targets are a set is not written, and the
    load that follows finds no checkpoint. *)
Lemma save_then_load_set_config :
  fst (save_checkpoint MiniJson.codec run_dir agent set_config PNone fresh)
  = Ok tt
  /\ fst (load_checkpoint MiniJson.codec run_dir
            (snd (save_checkpoint MiniJson.codec run_dir agent set_config PNone
                    fresh)))
     = Ok None.
Proof. split; vm_compute; reflexivity. Qed.

(** C2 on the fresh device. *)
Lemma save_then_load_witness :
  exists ck w1,
    save_checkpoint MiniJson.codec run_dir agent config PNone fresh = (Ok tt, w1)
    /\ fst (load_checkpoint MiniJson.codec run_dir w1) = Ok (Some ck)
    /\ py_get ck "scan_config" PNone = Ok config
    /\ py_get ck "agent_state" PNone = Ok snapshot.
Proof.
  apply (save_then_load MiniJson.codec run_dir agent config PNone fresh
           snapshot (PInt 5)
           (fst (MiniJson.dumps
                   (build_checkpoint (clock fresh) config snapshot PNone)))).
  - reflexivity.
  - reflexivity.
  - reflexivity.
  - vm_compute; reflexivity.
  - vm_compute; discriminate.
  - vm_compute; discriminate.
  - apply not_elem_of_empty.
  - apply not_elem_of_empty.
  - vm_compute; reflexivity.
  - vm_compute; reflexivity.
  - apply Nat.leb_le. vm_compute; reflexivity.
Defined.

(** C3: a checkpoint file holding a list. *)
Theorem load_checkpoint_raises_on_list :
  fst (load_checkpoint MiniJson.codec run_dir (with_checkpoint (PList [])))
  = Raise AttributeError.
Proof. vm_compute; reflexivity. Qed.

(** C4: an object without [model_dump]. *)
Lemma save_checkpoint_raises_without_model_dump :
  fst (save_checkpoint MiniJson.codec run_dir not_an_agent config PNone fresh)
  = Raise AttributeError.
Proof. vm_compute; reflexivity. Qed.

(** C4 with an agent state that fails to serialize. *)
Lemma save_checkpoint_never_raises_witness :
  fst (save_checkpoint MiniJson.codec run_dir unserializable_agent config PNone
         fresh)
  = Ok tt.
Proof.
  apply (save_checkpoint_never_raises MiniJson.codec run_dir
           unserializable_agent config PNone fresh (Raise ValueError) (PInt 5)).
  - reflexivity.
  - intros e [= <-]. reflexivity.
  - reflexivity.
  - reflexivity.
Defined.

(** C5: a checkpoint that [load_checkpoint] accepts, with a string under
    [agent_state]. *)
Lemma can_resume_raises_on_string_agent_state :
  fst (load_checkpoint MiniJson.codec run_dir (with_checkpoint odd))
  = Ok (Some odd)
  /\ fst (can_resume MiniJson.codec run_dir config (with_checkpoint odd))
     = Raise AttributeError.
Proof. split; vm_compute; reflexivity. Qed.

(** C5 with the running checkpoint and another target. *)
Lemma can_resume_returns_bool_witness :
  exists b : bool,
    fst (can_resume MiniJson.codec run_dir (PDict other_config)
           (with_checkpoint running))
    = Ok b.
Proof.
  apply (can_resume_returns_bool MiniJson.codec run_dir
           (with_checkpoint running)
           (snd (load_checkpoint MiniJson.codec run_dir (with_checkpoint running)))
           running
           [("iteration", PInt 5); ("completed", PBool false)]
           [("targets", PList [PStr "a.com"])] other_config
           (PList [PStr "a.com"]) (PList [PStr "b.com"]) 1 1);
    vm_compute; reflexivity.
Defined.


(** C7 with a completed checkpoint and the configuration it was saved with. *)
Lemma can_resume_completed_run_witness :
  fst (can_resume MiniJson.codec run_dir config (with_checkpoint completed))
  = Ok false.
Proof.
  apply (can_resume_completed_run MiniJson.codec run_dir config
           (with_checkpoint completed)
           (snd (load_checkpoint MiniJson.codec run_dir
                   (with_checkpoint completed)))
           completed [("iteration", PInt 9); ("completed", PBool true)]);
    vm_compute; reflexivity.
Defined.

(** C8 with one saved target and one, different, current target. *)
Lemma can_resume_target_count_witness :
  fst (can_resume MiniJson.codec run_dir (PDict other_config)
         (with_checkpoint running))
  = Ok true.
Proof.
  apply (can_resume_target_count MiniJson.codec run_dir
           (with_checkpoint running)
           (snd (load_checkpoint MiniJson.codec run_dir (with_checkpoint running)))
           running
           [("iteration", PInt 5); ("completed", PBool false)]
           [("targets", PList [PStr "a.com"])] other_config
           (PBool false) [PStr "a.com"] [PStr "b.com"]);
    vm_compute; reflexivity.
Defined.

(** C9 with a checkpoint in place. *)
Lemma delete_checkpoint_idempotent_witness :
  fst (delete_checkpoint run_dir (with_checkpoint running)) = Ok tt
  /\ fst (load_checkpoint MiniJson.codec run_dir
            (snd (delete_checkpoint run_dir (with_checkpoint running))))
     = Ok None.
Proof.
  pose proof (delete_checkpoint_idempotent run_dir (with_checkpoint running)
                eq_refl) as (Hret & _ & Hremoved & _).
  split; [exact Hret|].
  apply (Hremoved (fst (MiniJson.dumps running)));
    [reflexivity | apply not_elem_of_empty].
Defined.

(** C10 with neither [completed] nor [targets] anywhere. *)
Lemma can_resume_defaults_witness :
  fst (can_resume MiniJson.codec run_dir (PDict []) (with_checkpoint bare))
  = Ok true.
Proof.
  apply (can_resume_defaults MiniJson.codec run_dir (with_checkpoint bare)
           (snd (load_checkpoint MiniJson.codec run_dir (with_checkpoint bare)))
           bare [] [] []);
    vm_compute; reflexivity.
Defined.

(** * Further properties of the checkpoint store *)

(** ** What a run leaves unchanged *)

Section Preserves.

Context {A B X : Type} (f : World -> X).

Lemma preserves_ret (a : A) : preserves f (ret a).
Proof. intros w; reflexivity. Qed.

Lemma preserves_raise e : preserves f (@raise A e).
Proof. intros w; reflexivity. Qed.

Lemma preserves_lift (r : result A) : preserves f (lift r).
Proof. intros w; reflexivity. Qed.

Lemma preserves_bind (m : M A) (k : A -> M B) :
  preserves f m -> (forall a, preserves f (k a)) -> preserves f (bind m k).
Proof.
  intros Hm Hk w. unfold bind. specialize (Hm w).
  destruct (m w) as [[a|e] w1]; simpl in *; [|exact Hm].
  rewrite (Hk a w1). exact Hm.
Qed.

Lemma preserves_try_except (body : M A) classes handler :
  preserves f body -> (forall e, preserves f (handler e)) ->
  preserves f (try_except body classes handler).
Proof.
  intros Hm Hh w. unfold try_except. specialize (Hm w).
  destruct (body w) as [[a|e] w1]; simpl in *; [exact Hm|].
  destruct (catches classes e); [|exact Hm].
  rewrite (Hh e w1). exact Hm.
Qed.

End Preserves.

(** The steps that only read the world. *)
Section PreservesReaders.

Context {X : Type} (f : World -> X).
Hypothesis f_fuse : forall w n, f (set_fuse w n) = f w.

Lemma preserves_tick : preserves f tick.
Proof.
  intros w. unfold tick. destruct (fuse w) as [[|n]|]; simpl; auto.
Qed.

Lemma preserves_path_exists p : preserves f (path_exists p).
Proof.
  unfold path_exists. apply preserves_bind; [apply preserves_tick|].
  intros _ w. reflexivity.
Qed.

Lemma preserves_read_text p : preserves f (read_text p).
Proof.
  unfold read_text. apply preserves_bind; [apply preserves_tick|].
  intros _ w. simpl. repeat next_test; reflexivity.
Qed.

Lemma preserves_json_load json p : preserves f (json_load json p).
Proof.
  unfold json_load. apply preserves_bind; [apply preserves_read_text|].
  intros text. destruct (json_decode json text);
    [apply preserves_raise | apply preserves_ret].
Qed.

(** A primitive of the file system changes the files, the free space and
    the fuse at most. *)
Hypothesis f_fs : forall w m, f (set_fs w m) = f w.
Hypothesis f_space : forall w n, f (set_space w n) = f w.

Lemma preserves_open_write p : preserves f (open_write p).
Proof.
  unfold open_write. apply preserves_bind; [apply preserves_tick|].
  intros _ w. simpl. repeat next_test; simpl; auto.
Qed.

Lemma preserves_write_byte p c : preserves f (write_byte p c).
Proof.
  unfold write_byte. apply preserves_bind; [apply preserves_tick|].
  intros _ w. simpl. repeat next_test; simpl; rewrite ?f_space, ?f_fs; auto.
Qed.

Lemma preserves_write_text p s : preserves f (write_text p s).
Proof.
  induction s as [|c s IH]; simpl.
  - apply preserves_ret.
  - apply preserves_bind; [apply preserves_write_byte | auto].
Qed.

Lemma preserves_replace src dst : preserves f (replace src dst).
Proof.
  unfold replace. apply preserves_bind; [apply preserves_tick|].
  intros _ w. simpl. repeat next_test; simpl; auto.
Qed.

Lemma preserves_unlink p : preserves f (unlink p).
Proof.
  unfold unlink. apply preserves_bind; [apply preserves_tick|].
  intros _ w. simpl. repeat next_test; simpl; auto.
Qed.

Lemma preserves_json_dump json v p : preserves f (json_dump json v p).
Proof.
  unfold json_dump. destruct (json_encode json v) as [text err].
  apply preserves_bind; [apply preserves_write_text|].
  intros _. destruct err; [apply preserves_raise | apply preserves_ret].
Qed.

Lemma preserves_save_until_rename json run_dir a sc td :
  preserves f (save_until_rename json run_dir a sc td).
Proof.
  unfold save_until_rename.
  apply preserves_bind; [intros w; reflexivity|]. intros created_at.
  apply preserves_bind.
  { unfold call_model_dump. destruct (model_dump a);
      [apply preserves_lift | apply preserves_raise]. }
  intros snapshot.
  apply preserves_bind; [apply preserves_lift|]. intros temp_path.
  apply preserves_bind; [apply preserves_open_write|]. intros _.
  apply preserves_bind; [apply preserves_json_dump|]. intros _.
  apply preserves_replace.
Qed.

End PreservesReaders.

(** Logging changes the log only. *)
Lemma preserves_logger {X} (f : World -> X) l m :
  (forall w r, f (add_log w r) = f w) -> preserves f (logger l m).
Proof. intros Hf w. apply Hf. Qed.

(** ** Writing, with or without room *)

Lemma text_prefix_cons n c s :
  text_prefix (S n) (String c s) = String c (text_prefix n s).
Proof. reflexivity. Qed.

Lemma text_prefix_0 s : text_prefix 0 s = "".
Proof. destruct s; reflexivity. Qed.

Lemma text_prefix_all s : text_prefix (String.length s) s = s.
Proof.
  induction s as [|c s IH]; [reflexivity|].
  change (String c (text_prefix (String.length s) s) = String c s).
  f_equal. exact IH.
Qed.

(** An uninterrupted write sends the text to the file until the device is
    full. *)
Lemma write_text_run p s : forall w old,
  fuse w = None ->
  fs w !! p = Some (File old) ->
  exists w',
    write_text p s w
    = (if Nat.leb (String.length s) (space w) then Ok tt else Raise OSError, w')
    /\ fs w'
       = <[p := File (String.append old
                        (text_prefix (Nat.min (String.length s) (space w)) s))]>
           (fs w)
    /\ space w' = space w - String.length s
    /\ denied w' = denied w /\ fuse w' = None /\ clock w' = clock w
    /\ log w' = log w.
Proof.
  induction s as [|c s IH]; intros w old Hfuse Hfs.
  - exists w. simpl. rewrite text_prefix_0, append_empty_r, insert_id by exact Hfs.
    rewrite Nat.sub_0_r. auto 10.
  - change (write_text p (String c s))
      with (bind (write_byte p c) (fun _ => write_text p s)).
    unfold bind at 1, write_byte, bind, tick. rewrite Hfuse. simpl.
    destruct (space w) as [|n] eqn:Hn.
    + exists w. simpl. rewrite text_prefix_0, append_empty_r, insert_id by exact Hfs.
      rewrite Hn. auto 10.
    + rewrite Hfs.
      match goal with |- context [write_text p s ?w1] =>
        destruct (IH w1 (String.append old (String c ""))) as
          (w' & Hrun & Hfs' & Hspace' & Hden' & Hfuse' & Hclock' & Hlog')
      end; simpl; [assumption | apply lookup_insert_eq |].
      exists w'. rewrite Hrun. simpl in *.
      rewrite Hfs', insert_insert_eq, text_prefix_cons, append_snoc.
      auto 10.
Qed.

(** ** The steps of a save *)

Section SaveSteps.

Variable json : JsonCodec.

(** An uninterrupted save in an existing run directory, up to the rename:
    the temporary file receives the text the json module emits, or the part
    of it the device has room for; the rename is attempted only when the
    whole text was emitted and written. *)
Lemma save_until_rename_run run_dir a sc td w snapshot text err :
  fuse w = None ->
  model_dump a = Some (Ok snapshot) ->
  fs w !! run_dir = Some Dir ->
  fs w !! get_temp_path run_dir <> Some Dir ->
  get_temp_path run_dir ∉ denied w ->
  json_encode json (build_checkpoint (clock w) sc snapshot td) = (text, err) ->
  exists w2,
    fs w2
    = <[get_temp_path run_dir :=
          File (text_prefix (Nat.min (String.length text) (space w)) text)]>
        (fs w)
    /\ space w2 = space w - String.length text
    /\ denied w2 = denied w /\ fuse w2 = None /\ clock w2 = clock w
    /\ log w2 = log w
    /\ save_until_rename json run_dir a sc td w
       = if Nat.leb (String.length text) (space w) then
           match err with
           | Some e => (Raise (exn_of_encode e), w2)
           | None =>
               replace (get_temp_path run_dir) (get_checkpoint_path run_dir) w2
           end
         else (Raise OSError, w2).
Proof.
  intros Hfuse Hdump Hdir Htmp Hdtmp Henc.
  apply (bool_decide_eq_false_2 _) in Hdtmp.
  unfold save_until_rename, now_isoformat, call_model_dump.
  rewrite Hdump, with_suffix_checkpoint.
  unfold bind at 1. unfold bind at 1. simpl. rewrite bind_lift_ok.
  unfold bind at 1. unfold open_write, bind at 1, tick.
  rewrite Hfuse, Hdtmp, parent_temp_path, Hdir.
  assert (Hopen :
    match fs w !! get_temp_path run_dir with
    | Some Dir => (Raise OSError, w)
    | _ => (Ok tt, set_fs w (<[get_temp_path run_dir := File ""]> (fs w)))
    end = (Ok tt, set_fs w (<[get_temp_path run_dir := File ""]> (fs w)))).
  { destruct (fs w !! get_temp_path run_dir) as [[|]|]; congruence. }
  rewrite Hopen. clear Hopen.
  unfold json_dump. rewrite Henc. unfold bind at 1, bind at 1.
  destruct (write_text_run (get_temp_path run_dir) text
              (set_fs w (<[get_temp_path run_dir := File ""]> (fs w))) "")
    as (w2 & Hrun & Hfs2 & Hspace2 & Hden2 & Hfuse2 & Hclock2 & Hlog2);
    [exact Hfuse | apply lookup_insert_eq |].
  simpl in Hrun, Hfs2, Hspace2, Hden2, Hclock2, Hlog2.
  rewrite insert_insert_eq in Hfs2.
  exists w2. rewrite Hrun.
  destruct (Nat.leb (String.length text) (space w)); simpl;
    [destruct err|]; auto 10.
Qed.

(** The rename of a written temporary file onto a path that is not a
    directory, in an existing directory. *)
Lemma replace_run run_dir w text :
  fuse w = None ->
  fs w !! get_temp_path run_dir = Some (File text) ->
  fs w !! run_dir = Some Dir ->
  fs w !! get_checkpoint_path run_dir <> Some Dir ->
  get_temp_path run_dir ∉ denied w ->
  get_checkpoint_path run_dir ∉ denied w ->
  replace (get_temp_path run_dir) (get_checkpoint_path run_dir) w
  = (Ok tt,
     set_fs w (<[get_checkpoint_path run_dir := File text]>
                 (delete (get_temp_path run_dir) (fs w)))).
Proof.
  intros Hfuse Htmp Hdir Hck Hdtmp Hdck.
  apply (bool_decide_eq_false_2 _) in Hdck, Hdtmp.
  unfold replace, bind, tick.
  rewrite Hfuse, Hdtmp, Hdck, Htmp, parent_checkpoint_path, Hdir. simpl.
  destruct (fs w !! get_checkpoint_path run_dir) as [[|]|]; congruence.
Qed.

(** An uninterrupted save that meets no obstacle. *)
Lemma save_checkpoint_run run_dir a sc td w snapshot it text :
  fuse w = None ->
  model_dump a = Some (Ok snapshot) ->
  iteration a = Some it ->
  fs w !! run_dir = Some Dir ->
  fs w !! get_checkpoint_path run_dir <> Some Dir ->
  fs w !! get_temp_path run_dir <> Some Dir ->
  get_checkpoint_path run_dir ∉ denied w ->
  get_temp_path run_dir ∉ denied w ->
  json_encode json (build_checkpoint (clock w) sc snapshot td) = (text, None) ->
  String.length text <= space w ->
  exists w1,
    save_checkpoint json run_dir a sc td w = (Ok tt, w1)
    /\ fs w1
       = <[get_checkpoint_path run_dir := File text]>
           (delete (get_temp_path run_dir) (fs w))
    /\ space w1 = space w - String.length text
    /\ denied w1 = denied w /\ fuse w1 = None /\ clock w1 = clock w
    /\ log w1 = log w ++ [(INFO, MsgSaved it)].
Proof.
  intros Hfuse Hdump Hit Hdir Hck Htmp Hdck Hdtmp Henc Hspace.
  pose proof (temp_path_fresh run_dir) as Hfresh.
  pose proof (run_dir_not_temp run_dir) as Hrd.
  destruct (save_until_rename_run run_dir a sc td w snapshot text None)
    as (w2 & Hfs2 & Hspace2 & Hden2 & Hfuse2 & Hclock2 & Hlog2 & Hrun);
    try assumption.
  apply Nat.leb_le in Hspace as Hleb. rewrite Hleb in Hrun.
  rewrite Nat.min_l, text_prefix_all in Hfs2 by exact Hspace.
  rewrite (replace_run run_dir w2 text) in Hrun.
  - unfold save_checkpoint, try_except, bind at 1. rewrite Hrun.
    unfold get_iteration. rewrite Hit. simpl.
    eexists. split; [reflexivity|]. simpl.
    rewrite Hfs2, delete_insert_eq, Hspace2, Hden2, Hfuse2, Hclock2, Hlog2.
    auto 10.
  - exact Hfuse2.
  - rewrite Hfs2. apply lookup_insert_eq.
  - rewrite Hfs2, lookup_insert_ne by congruence. exact Hdir.
  - rewrite Hfs2, lookup_insert_ne by congruence. exact Hck.
  - rewrite Hden2. exact Hdtmp.
  - rewrite Hden2. exact Hdck.
Qed.

End SaveSteps.

(** ** What a save does to the files *)

(** X1.  An uninterrupted save that meets no obstacle returns [None], leaves
    the text of the record in the checkpoint file, leaves no temporary
    file, changes no other path and logs one INFO record with the
    iteration. *)
Theorem save_checkpoint_effect (json : JsonCodec) (run_dir : Path)
    (agent_state : AgentState) (scan_config tracer_data : pyval) (w : World)
    (snapshot it : pyval) (text : string) :
  fuse w = None ->
  model_dump agent_state = Some (Ok snapshot) ->
  iteration agent_state = Some it ->
  fs w !! run_dir = Some Dir ->
  fs w !! get_checkpoint_path run_dir <> Some Dir ->
  fs w !! get_temp_path run_dir <> Some Dir ->
  get_checkpoint_path run_dir ∉ denied w ->
  get_temp_path run_dir ∉ denied w ->
  json_encode json (build_checkpoint (clock w) scan_config snapshot tracer_data)
  = (text, None) ->
  String.length text <= space w ->
  let w1 :=
    snd (save_checkpoint json run_dir agent_state scan_config tracer_data w) in
  fst (save_checkpoint json run_dir agent_state scan_config tracer_data w)
  = Ok tt
  /\ fs w1 !! get_checkpoint_path run_dir = Some (File text)
  /\ fs w1 !! get_temp_path run_dir = None
  /\ (forall q, q <> get_checkpoint_path run_dir -> q <> get_temp_path run_dir ->
      fs w1 !! q = fs w !! q)
  /\ log w1 = log w ++ [(INFO, MsgSaved it)].
Proof.
  intros Hfuse Hdump Hit Hdir Hck Htmp Hdck Hdtmp Henc Hspace w1. subst w1.
  pose proof (temp_path_fresh run_dir) as Hfresh.
  destruct (save_checkpoint_run json run_dir agent_state scan_config
              tracer_data w snapshot it text)
    as (w1 & Hrun & Hfs & _ & _ & _ & _ & Hlog); try assumption.
  rewrite Hrun. simpl. rewrite Hfs.
  split; [reflexivity|]. split; [apply lookup_insert_eq|]. split.
  { rewrite lookup_insert_ne by congruence. apply lookup_delete_eq. }
  split; [|exact Hlog].
  intros q Hq1 Hq2.
  rewrite lookup_insert_ne, lookup_delete_ne by congruence. reflexivity.
Qed.

(** X2.  Two saves in a row leave one checkpoint file, holding the record
    of the second: the files are what the second save alone would have left,
    and [load_checkpoint] returns the second record. *)
Theorem save_checkpoint_overwrites (json : JsonCodec) (run_dir : Path)
    (agent1 agent2 : AgentState) (config1 config2 tracer1 tracer2 : pyval)
    (w : World) (snapshot1 snapshot2 it1 it2 : pyval) (text1 text2 : string) :
  fuse w = None ->
  model_dump agent1 = Some (Ok snapshot1) -> iteration agent1 = Some it1 ->
  model_dump agent2 = Some (Ok snapshot2) -> iteration agent2 = Some it2 ->
  fs w !! run_dir = Some Dir ->
  fs w !! get_checkpoint_path run_dir <> Some Dir ->
  fs w !! get_temp_path run_dir <> Some Dir ->
  get_checkpoint_path run_dir ∉ denied w ->
  get_temp_path run_dir ∉ denied w ->
  json_encode json (build_checkpoint (clock w) config1 snapshot1 tracer1)
  = (text1, None) ->
  json_encode json (build_checkpoint (clock w) config2 snapshot2 tracer2)
  = (text2, None) ->
  json_decode json text2
  = inr (build_checkpoint (clock w) config2 snapshot2 tracer2) ->
  String.length text1 + String.length text2 <= space w ->
  let w2 :=
    snd (bind (save_checkpoint json run_dir agent1 config1 tracer1)
              (fun _ => save_checkpoint json run_dir agent2 config2 tracer2) w) in
  fs w2
  = <[get_checkpoint_path run_dir := File text2]>
      (delete (get_temp_path run_dir) (fs w))
  /\ fst (load_checkpoint json run_dir w2)
     = Ok (Some (build_checkpoint (clock w) config2 snapshot2 tracer2)).
Proof.
  intros Hfuse Hd1 Hi1 Hd2 Hi2 Hdir Hck Htmp Hdck Hdtmp He1 He2 Hdec Hspace w2.
  subst w2.
  pose proof (temp_path_fresh run_dir) as Hfresh.
  pose proof (run_dir_not_temp run_dir) as Hrd.
  assert (Hrc : run_dir <> get_checkpoint_path run_dir).
  { unfold get_checkpoint_path, joinpath. intros H.
    apply (f_equal (@List.length string)) in H.
    rewrite List.length_app in H. simpl in H. lia. }
  destruct (save_checkpoint_run json run_dir agent1 config1 tracer1 w
              snapshot1 it1 text1)
    as (w1 & Hrun1 & Hfs1 & Hsp1 & Hden1 & Hfuse1 & Hclock1 & _);
    try assumption; [lia|].
  destruct (save_checkpoint_run json run_dir agent2 config2 tracer2 w1
              snapshot2 it2 text2)
    as (w2 & Hrun2 & Hfs2 & _ & Hden2 & Hfuse2 & _ & _); try assumption.
  - rewrite Hfs1, lookup_insert_ne, lookup_delete_ne by congruence. exact Hdir.
  - rewrite Hfs1, lookup_insert_eq. discriminate.
  - rewrite Hfs1, lookup_insert_ne, lookup_delete_eq by congruence.
    discriminate.
  - rewrite Hden1. exact Hdck.
  - rewrite Hden1. exact Hdtmp.
  - rewrite Hclock1. exact He2.
  - lia.
  - unfold bind. rewrite Hrun1, Hrun2. simpl.
    assert (Hfs : fs w2 = <[get_checkpoint_path run_dir := File text2]>
                            (delete (get_temp_path run_dir) (fs w))).
    { rewrite Hfs2, Hfs1. apply map_eq. intros q.
      destruct (decide (q = get_checkpoint_path run_dir)) as [->|Hq1];
        [rewrite !lookup_insert_eq; reflexivity|].
      rewrite !lookup_insert_ne by congruence.
      destruct (decide (q = get_temp_path run_dir)) as [->|Hq2];
        [rewrite !lookup_delete_eq; reflexivity|].
      rewrite !lookup_delete_ne, lookup_insert_ne, lookup_delete_ne
        by congruence.
      reflexivity. }
    split; [exact Hfs|].
    etransitivity;
      [ eapply load_checkpoint_object;
        [ exact Hfuse2 | rewrite Hden2, Hden1; exact Hdck
        | rewrite Hfs; apply lookup_insert_eq | exact Hdec ]
      | reflexivity ].
Qed.

(** The rename touches its two paths only. *)
Lemma frame_replace q src dst :
  q <> src -> q <> dst -> frame q (replace src dst).
Proof. intros Hsrc Hdst. unfold replace. prim_frame. Qed.

Section SaveFrame.

Variable json : JsonCodec.

Lemma frame_save_checkpoint q run_dir a sc td :
  q <> get_checkpoint_path run_dir -> q <> get_temp_path run_dir ->
  frame q (save_checkpoint json run_dir a sc td).
Proof.
  intros Hck Htmp. unfold save_checkpoint.
  apply frame_try_except; [|intros e; apply frame_logger].
  apply frame_bind.
  - unfold save_until_rename.
    apply frame_bind; [intros w; auto|]. intros created_at.
    apply frame_bind.
    { unfold call_model_dump. destruct (model_dump a);
        [apply frame_lift | apply frame_raise]. }
    intros snapshot.
    rewrite with_suffix_checkpoint, bind_lift_ok.
    apply frame_bind; [apply frame_open_write; exact Htmp|]. intros _.
    apply frame_bind; [apply frame_json_dump; exact Htmp|]. intros _.
    apply frame_replace; assumption.
  - intros _. apply frame_bind.
    + unfold get_iteration. destruct (iteration a);
        [apply frame_ret | apply frame_raise].
    + intros it. apply frame_logger.
Qed.

End SaveFrame.

(** X3.  Whatever happens, [save_checkpoint] touches two paths at most,
    the checkpoint file and the temporary file of its run directory: every
    other file or directory is as it was, and so are the access rights. *)
Theorem save_checkpoint_touches_two_paths (json : JsonCodec) (run_dir : Path)
    (agent_state : AgentState) (scan_config tracer_data : pyval) (w : World)
    (q : Path) :
  q <> get_checkpoint_path run_dir ->
  q <> get_temp_path run_dir ->
  let w1 :=
    snd (save_checkpoint json run_dir agent_state scan_config tracer_data w) in
  fs w1 !! q = fs w !! q /\ denied w1 = denied w.
Proof.
  intros Hck Htmp.
  apply (frame_save_checkpoint json q run_dir agent_state scan_config
           tracer_data Hck Htmp w).
Qed.

Lemma checkpoint_path_inj rd1 rd2 :
  get_checkpoint_path rd1 = get_checkpoint_path rd2 -> rd1 = rd2.
Proof.
  unfold get_checkpoint_path, joinpath. intros H.
  apply app_inj_tail in H. tauto.
Qed.

Lemma checkpoint_path_not_temp rd1 rd2 :
  get_checkpoint_path rd1 <> get_temp_path rd2.
Proof.
  unfold get_checkpoint_path, get_temp_path, joinpath. intros H.
  apply app_inj_tail in H. destruct H as [_ H]. discriminate H.
Qed.

(** X4.  Run directories do not interfere: a save in one, successful or
    not, changes nothing of what [load_checkpoint] returns for another. *)
Theorem save_checkpoint_isolated_runs (json : JsonCodec)
    (run_dir other_dir : Path) (agent_state : AgentState)
    (scan_config tracer_data : pyval) (w : World) (f : option nat) :
  other_dir <> run_dir ->
  let w1 :=
    snd (save_checkpoint json run_dir agent_state scan_config tracer_data w) in
  fs w1 !! get_checkpoint_path other_dir = fs w !! get_checkpoint_path other_dir
  /\ fst (load_checkpoint json other_dir (set_fuse w1 f))
     = fst (load_checkpoint json other_dir (set_fuse w f)).
Proof.
  intros Hne w1.
  destruct (frame_save_checkpoint json (get_checkpoint_path other_dir) run_dir
              agent_state scan_config tracer_data) with (w := w)
    as [Hfs Hden].
  - intros H. apply Hne. exact (checkpoint_path_inj _ _ H).
  - apply checkpoint_path_not_temp.
  - split; [exact Hfs|].
    apply load_checkpoint_depends; simpl; auto.
Qed.

(** ** What a load makes of a file *)

(** X5.  The outcome of an uninterrupted [load_checkpoint] on a readable
    checkpoint file, by what the json module makes of its text: malformed
    JSON gives [None]; the other decoding errors go through the [except]
    clause; an object is validated; any other value raises
    [AttributeError]. *)
Theorem load_checkpoint_outcomes (json : JsonCodec) (run_dir : Path)
    (w : World) (text : string) :
  fuse w = None ->
  get_checkpoint_path run_dir ∉ denied w ->
  fs w !! get_checkpoint_path run_dir = Some (File text) ->
  fst (load_checkpoint json run_dir w)
  = match json_decode json text with
    | inl DecJSONDecodeError => Ok None
    | inl e => Raise (exn_of_decode e)
    | inr (PDict d) =>
        Ok (if valid_checkpoint (PDict d) then Some (PDict d) else None)
    | inr _ => Raise AttributeError
    end.
Proof.
  intros Hfuse Hden Hfs.
  destruct (json_decode json text) as [e|v] eqn:Hdec.
  - apply (bool_decide_eq_false_2 _) in Hden.
    cbv beta iota zeta delta [load_checkpoint json_load try_except bind ret
      raise lift logger path_exists read_text tick].
    repeat (simpl; rewrite ?Hfuse, ?Hfs, ?Hden, ?Hdec).
    destruct e; reflexivity.
  - destruct v as [| | | | | | | |d];
      try (eapply load_checkpoint_not_object; eauto; discriminate).
    eapply load_checkpoint_object; eauto.
Qed.

(** X6.  With no checkpoint file, with a directory in its place, or with a
    file the system does not let it read, an uninterrupted
    [load_checkpoint] returns [None], and [can_resume] returns [False]
    without looking at the current configuration. *)
Theorem load_checkpoint_unavailable (json : JsonCodec) (run_dir : Path)
    (current_scan_config : pyval) (w : World) :
  fuse w = None ->
  fs w !! get_checkpoint_path run_dir = None
  \/ fs w !! get_checkpoint_path run_dir = Some Dir
  \/ get_checkpoint_path run_dir ∈ denied w ->
  fst (load_checkpoint json run_dir w) = Ok None
  /\ fst (can_resume json run_dir current_scan_config w) = Ok false.
Proof.
  intros Hfuse Hcase.
  assert (Hload : exists w1, load_checkpoint json run_dir w = (Ok None, w1)).
  { cbv beta iota zeta delta [load_checkpoint json_load try_except bind ret
      raise lift logger path_exists read_text tick].
    rewrite Hfuse. simpl.
    destruct Hcase as [Hfs|[Hfs|Hden]].
    - rewrite Hfs. simpl. eauto.
    - rewrite Hfs. simpl. rewrite ?Hfuse. simpl.
      destruct (bool_decide _); simpl; rewrite ?Hfs; simpl; eauto.
    - apply (bool_decide_eq_true_2 _) in Hden.
      destruct (fs w !! get_checkpoint_path run_dir); simpl; [|eauto].
      rewrite ?Hfuse. simpl. rewrite Hden. simpl. eauto. }
  destruct Hload as [w1 Hload].
  rewrite (can_resume_not_loaded json run_dir current_scan_config w w1 Hload).
  rewrite Hload. auto.
Qed.

Section Observers.

Variable json : JsonCodec.
Context {X : Type} (f : World -> X).
Hypothesis f_fuse : forall w n, f (set_fuse w n) = f w.
Hypothesis f_log : forall w r, f (add_log w r) = f w.

Lemma preserves_load_checkpoint run_dir :
  preserves f (load_checkpoint json run_dir).
Proof.
  unfold load_checkpoint.
  apply preserves_try_except.
  - apply preserves_bind; [apply preserves_path_exists, f_fuse|].
    intros found. destruct (negb found).
    { apply preserves_bind; [apply preserves_logger, f_log|].
      intros _. apply preserves_ret. }
    apply preserves_bind; [apply preserves_json_load, f_fuse|].
    intros checkpoint.
    apply preserves_bind; [apply preserves_lift|]. intros version.
    destruct (negb _).
    { apply preserves_bind; [apply preserves_logger, f_log|].
      intros _. apply preserves_ret. }
    apply preserves_bind; [apply preserves_lift|]. intros missing.
    destruct missing;
      (apply preserves_bind; [apply preserves_logger, f_log|];
       intros _; apply preserves_ret).
  - intros e. apply preserves_bind; [apply preserves_logger, f_log|].
    intros _. apply preserves_ret.
Qed.

Lemma preserves_check_compatible ck cur :
  preserves f (check_compatible ck cur).
Proof.
  unfold check_compatible.
  apply preserves_bind; [apply preserves_lift|]. intros agent_state_data.
  apply preserves_bind; [apply preserves_lift|]. intros completed.
  destruct (py_truthy completed).
  { apply preserves_bind; [apply preserves_logger, f_log|].
    intros _. apply preserves_ret. }
  repeat (apply preserves_bind; [apply preserves_lift|]; intros ?).
  destruct (negb _); [|apply preserves_ret].
  apply preserves_bind; [apply preserves_logger, f_log|].
  intros _. apply preserves_ret.
Qed.

Lemma preserves_can_resume run_dir cur :
  preserves f (can_resume json run_dir cur).
Proof.
  unfold can_resume.
  apply preserves_bind; [apply preserves_load_checkpoint|].
  intros [ck|]; [|apply preserves_ret].
  destruct (negb _); [apply preserves_ret | apply preserves_check_compatible].
Qed.

End Observers.

(** X7.  [can_resume] observes: in every run, raising or not, it leaves the
    files, the access rights, the free space and the clock as they are. *)
Theorem can_resume_reads_only (json : JsonCodec) (run_dir : Path)
    (current_scan_config : pyval) (w : World) :
  let w1 := snd (can_resume json run_dir current_scan_config w) in
  fs w1 = fs w /\ denied w1 = denied w /\ space w1 = space w
  /\ clock w1 = clock w.
Proof.
  pose proof (preserves_can_resume json
                (fun w => (fs w, denied w, space w, clock w))
                (fun _ _ => eq_refl) (fun _ _ => eq_refl)
                run_dir current_scan_config w) as H.
  simpl in H. injection H as Hfs Hden Hspace Hclock. auto.
Qed.

(** ** Saves that fail *)

(** X8.  Without a run directory an uninterrupted save creates nothing: it
    returns [None], the world is as it was but for one ERROR record of the
    [OSError]. *)
Theorem save_checkpoint_missing_run_dir (json : JsonCodec) (run_dir : Path)
    (agent_state : AgentState) (scan_config tracer_data : pyval) (w : World)
    (snapshot : pyval) :
  fuse w = None ->
  model_dump agent_state = Some (Ok snapshot) ->
  fs w !! run_dir <> Some Dir ->
  save_checkpoint json run_dir agent_state scan_config tracer_data w
  = (Ok tt, add_log w (ERROR, MsgSaveFailed OSError)).
Proof.
  intros Hfuse Hdump Hdir.
  unfold save_checkpoint, try_except, save_until_rename, now_isoformat,
    call_model_dump.
  rewrite Hdump, with_suffix_checkpoint.
  unfold bind at 1. unfold bind at 1. unfold bind at 1. simpl.
  rewrite bind_lift_ok.
  unfold bind at 1. unfold open_write, bind at 1, tick.
  rewrite Hfuse, parent_temp_path.
  destruct (bool_decide _); [reflexivity|].
  destruct (fs w !! get_temp_path run_dir) as [[|]|];
    destruct (fs w !! run_dir) as [[|]|]; try reflexivity; congruence.
Qed.

(** X9.  On a device without room for the text, an uninterrupted save
    returns [None] after logging the [OSError]; the temporary file is left
    behind with the part of the text that fitted, and no other path has
    changed, the checkpoint file in particular. *)
Theorem save_checkpoint_disk_full (json : JsonCodec) (run_dir : Path)
    (agent_state : AgentState) (scan_config tracer_data : pyval) (w : World)
    (snapshot : pyval) (text : string) (err : option encode_error) :
  fuse w = None ->
  model_dump agent_state = Some (Ok snapshot) ->
  fs w !! run_dir = Some Dir ->
  fs w !! get_temp_path run_dir <> Some Dir ->
  get_temp_path run_dir ∉ denied w ->
  json_encode json (build_checkpoint (clock w) scan_config snapshot tracer_data)
  = (text, err) ->
  space w < String.length text ->
  let w1 :=
    snd (save_checkpoint json run_dir agent_state scan_config tracer_data w) in
  fst (save_checkpoint json run_dir agent_state scan_config tracer_data w)
  = Ok tt
  /\ fs w1
     = <[get_temp_path run_dir := File (text_prefix (space w) text)]> (fs w)
  /\ fs w1 !! get_checkpoint_path run_dir = fs w !! get_checkpoint_path run_dir
  /\ space w1 = 0
  /\ log w1 = log w ++ [(ERROR, MsgSaveFailed OSError)].
Proof.
  intros Hfuse Hdump Hdir Htmp Hdtmp Henc Hspace w1. subst w1.
  pose proof (temp_path_fresh run_dir) as Hfresh.
  destruct (save_until_rename_run json run_dir agent_state scan_config
              tracer_data w snapshot text err)
    as (w2 & Hfs2 & Hspace2 & _ & _ & _ & Hlog2 & Hrun); try assumption.
  assert (Hleb : Nat.leb (String.length text) (space w) = false)
    by (apply Nat.leb_gt; exact Hspace).
  rewrite Hleb in Hrun.
  rewrite Nat.min_r in Hfs2 by lia.
  assert (Hsave :
    save_checkpoint json run_dir agent_state scan_config tracer_data w
    = (Ok tt, add_log w2 (ERROR, MsgSaveFailed OSError))).
  { unfold save_checkpoint, try_except, bind at 1. rewrite Hrun. reflexivity. }
  rewrite Hsave. simpl. rewrite Hfs2, Hlog2, Hspace2.
  split; [reflexivity|]. split; [reflexivity|].
  split; [rewrite lookup_insert_ne by congruence; reflexivity|].
  split; [lia | reflexivity].
Qed.

(** X10.  When the json module gives up in the middle of the record (a
    value it does not write), an uninterrupted save returns [None] after
    logging the error; the temporary file is left behind with the text
    emitted so far and the checkpoint file is untouched. *)
Theorem save_checkpoint_unserializable (json : JsonCodec) (run_dir : Path)
    (agent_state : AgentState) (scan_config tracer_data : pyval) (w : World)
    (snapshot : pyval) (text : string) (e : encode_error) :
  fuse w = None ->
  model_dump agent_state = Some (Ok snapshot) ->
  fs w !! run_dir = Some Dir ->
  fs w !! get_temp_path run_dir <> Some Dir ->
  get_temp_path run_dir ∉ denied w ->
  json_encode json (build_checkpoint (clock w) scan_config snapshot tracer_data)
  = (text, Some e) ->
  String.length text <= space w ->
  let w1 :=
    snd (save_checkpoint json run_dir agent_state scan_config tracer_data w) in
  fst (save_checkpoint json run_dir agent_state scan_config tracer_data w)
  = Ok tt
  /\ fs w1 = <[get_temp_path run_dir := File text]> (fs w)
  /\ fs w1 !! get_checkpoint_path run_dir = fs w !! get_checkpoint_path run_dir
  /\ log w1 = log w ++ [(ERROR, MsgSaveFailed (exn_of_encode e))].
Proof.
  intros Hfuse Hdump Hdir Htmp Hdtmp Henc Hspace w1. subst w1.
  pose proof (temp_path_fresh run_dir) as Hfresh.
  destruct (save_until_rename_run json run_dir agent_state scan_config
              tracer_data w snapshot text (Some e))
    as (w2 & Hfs2 & _ & _ & _ & _ & Hlog2 & Hrun); try assumption.
  apply Nat.leb_le in Hspace as Hleb. rewrite Hleb in Hrun.
  rewrite Nat.min_l, text_prefix_all in Hfs2 by exact Hspace.
  assert (Hsave :
    save_checkpoint json run_dir agent_state scan_config tracer_data w
    = (Ok tt, add_log w2 (ERROR, MsgSaveFailed (exn_of_encode e)))).
  { unfold save_checkpoint, try_except, bind at 1. rewrite Hrun.
    destruct e; reflexivity. }
  rewrite Hsave. simpl. rewrite Hfs2, Hlog2.
  split; [reflexivity|]. split; [reflexivity|].
  split; [rewrite lookup_insert_ne by congruence; reflexivity | reflexivity].
Qed.

(** ** Saving, then asking *)

(** X11.  After a save that went through, whose record the json module
    reads back as it was, [can_resume] is decided by the record just saved:
    false when the snapshot is completed, and otherwise true exactly when
    the saved configuration and the current one list the same number of
    targets. *)
Theorem save_then_can_resume (json : JsonCodec) (run_dir : Path)
    (agent_state : AgentState) (tracer_data : pyval) (w : World)
    (snapshot saved_config current_scan_config : list (string * pyval))
    (it : pyval) (text : string) (saved_targets current_targets : list pyval) :
  fuse w = None ->
  model_dump agent_state = Some (Ok (PDict snapshot)) ->
  iteration agent_state = Some it ->
  fs w !! run_dir = Some Dir ->
  fs w !! get_checkpoint_path run_dir <> Some Dir ->
  fs w !! get_temp_path run_dir <> Some Dir ->
  get_checkpoint_path run_dir ∉ denied w ->
  get_temp_path run_dir ∉ denied w ->
  json_encode json
    (build_checkpoint (clock w) (PDict saved_config) (PDict snapshot) tracer_data)
  = (text, None) ->
  json_decode json text
  = inr (build_checkpoint (clock w) (PDict saved_config) (PDict snapshot)
           tracer_data) ->
  String.length text <= space w ->
  dict_get "targets" saved_config = Some (PList saved_targets) ->
  dict_get "targets" current_scan_config = Some (PList current_targets) ->
  fst (bind (save_checkpoint json run_dir agent_state (PDict saved_config)
               tracer_data)
            (fun _ => can_resume json run_dir (PDict current_scan_config)) w)
  = Ok (negb (py_truthy (match dict_get "completed" snapshot with
                         | Some c => c | None => PBool false end))
        && Nat.eqb (List.length saved_targets) (List.length current_targets)).
Proof.
  intros Hfuse Hdump Hit Hdir Hck Htmp Hdck Hdtmp Henc Hdec Hspace Hts Htc.
  destruct (save_checkpoint_run json run_dir agent_state (PDict saved_config)
              tracer_data w (PDict snapshot) it text)
    as (w1 & Hrun & Hfs & _ & Hden & Hfuse1 & _ & _); try assumption.
  unfold bind at 1. rewrite Hrun.
  assert (Hload :
    fst (load_checkpoint json run_dir w1)
    = Ok (Some (build_checkpoint (clock w) (PDict saved_config)
                  (PDict snapshot) tracer_data))).
  { etransitivity;
      [ eapply load_checkpoint_object;
        [ exact Hfuse1 | rewrite Hden; exact Hdck
        | rewrite Hfs; apply lookup_insert_eq | exact Hdec ]
      | reflexivity ]. }
  destruct (load_checkpoint json run_dir w1) as [r w2] eqn:Hpair.
  simpl in Hload. subst r.
  rewrite (can_resume_loaded json run_dir _ w1 _ w2 Hpair).
  destruct (py_truthy (match dict_get "completed" snapshot with
                       | Some c => c | None => PBool false end)) eqn:Hc.
  - eapply check_compatible_completed; [reflexivity | reflexivity | exact Hc].
  - eapply check_compatible_counts;
      [ reflexivity | reflexivity | exact Hc | reflexivity
      | simpl; rewrite Hts; reflexivity | simpl; rewrite Htc; reflexivity
      | reflexivity | reflexivity ].
Qed.

(** X12.  In a run directory that held neither checkpoint nor temporary
    file, a save that went through followed by a delete gives back the
    files as they were. *)
Theorem save_then_delete_restores (json : JsonCodec) (run_dir : Path)
    (agent_state : AgentState) (scan_config tracer_data : pyval) (w : World)
    (snapshot it : pyval) (text : string) :
  fuse w = None ->
  model_dump agent_state = Some (Ok snapshot) ->
  iteration agent_state = Some it ->
  fs w !! run_dir = Some Dir ->
  fs w !! get_checkpoint_path run_dir = None ->
  fs w !! get_temp_path run_dir = None ->
  get_checkpoint_path run_dir ∉ denied w ->
  get_temp_path run_dir ∉ denied w ->
  json_encode json (build_checkpoint (clock w) scan_config snapshot tracer_data)
  = (text, None) ->
  String.length text <= space w ->
  let w2 :=
    snd (bind (save_checkpoint json run_dir agent_state scan_config tracer_data)
              (fun _ => delete_checkpoint run_dir) w) in
  fs w2 = fs w.
Proof.
  intros Hfuse Hdump Hit Hdir Hck Htmp Hdck Hdtmp Henc Hspace w2. subst w2.
  destruct (save_checkpoint_run json run_dir agent_state scan_config
              tracer_data w snapshot it text)
    as (w1 & Hrun & Hfs & _ & Hden & Hfuse1 & _ & _);
    try assumption; try congruence.
  unfold bind. rewrite Hrun.
  rewrite (delete_checkpoint_run run_dir w1 Hfuse1).
  rewrite Hfs, lookup_insert_eq, Hden.
  rewrite bool_decide_eq_false_2 by exact Hdck. simpl.
  rewrite delete_insert_eq.
  rewrite (delete_id (fs w) (get_temp_path run_dir)) by exact Htmp.
  rewrite delete_id by exact Hck. reflexivity.
Qed.

(** X13.  Whatever happens, [delete_checkpoint] touches the checkpoint path
    only. *)
Theorem delete_checkpoint_touches_one_path (run_dir : Path) (w : World)
    (q : Path) :
  q <> get_checkpoint_path run_dir ->
  let w1 := snd (delete_checkpoint run_dir w) in
  fs w1 !! q = fs w !! q /\ denied w1 = denied w.
Proof.
  intros Hq.
  assert (H : frame q (delete_checkpoint run_dir)); [|exact (H w)].
  unfold delete_checkpoint.
  apply frame_try_except; [|intros e; apply frame_logger].
  apply frame_bind; [apply frame_path_exists|].
  intros [|]; [|apply frame_ret].
  apply frame_bind; [apply frame_unlink; exact Hq|].
  intros _. apply frame_logger.
Qed.

(** ** What the log tells *)

(** X14.  The log tells how a save ended.  A save that returns has appended
    exactly one record: INFO with the iteration when the checkpoint is in
    place, ERROR with the exception when a failure of a class of the
    [except] clause was swallowed.  A save that raises has logged
    nothing, and its exception is of no class of the clause. *)
Theorem save_checkpoint_logs_outcome (json : JsonCodec) (run_dir : Path)
    (agent_state : AgentState) (scan_config tracer_data : pyval) (w : World) :
  let w1 :=
    snd (save_checkpoint json run_dir agent_state scan_config tracer_data w) in
  match
    fst (save_checkpoint json run_dir agent_state scan_config tracer_data w)
  with
  | Ok _ =>
      (exists it,
         iteration agent_state = Some it
         /\ log w1 = log w ++ [(INFO, MsgSaved it)])
      \/ (exists e,
            save_caught e = true
            /\ log w1 = log w ++ [(ERROR, MsgSaveFailed e)])
  | Raise e => log w1 = log w /\ save_caught e = false
  end.
Proof.
  pose proof (preserves_save_until_rename log (fun _ _ => eq_refl)
                (fun _ _ => eq_refl) (fun _ _ => eq_refl)
                json run_dir agent_state scan_config tracer_data w) as Hlog.
  cbv beta iota zeta delta [save_checkpoint try_except bind get_iteration
    logger ret raise].
  destruct (save_until_rename json run_dir agent_state scan_config
              tracer_data w) as [[[]|e] w0]; simpl in Hlog.
  - destruct (iteration agent_state) as [it|]; simpl.
    + left. exists it. rewrite <- Hlog. auto.
    + rewrite <- Hlog. auto.
  - change (catches [OSError; RuntimeError; TypeError; ValueError] e)
      with (save_caught e).
    destruct (save_caught e) eqn:He; simpl.
    + right. exists e. rewrite <- Hlog. auto.
    + rewrite <- Hlog. auto.
Qed.

(** X15.  The log tells why a load found nothing.  A load that returns a
    checkpoint has appended one INFO record; a load that returns [None]
    has appended one record that is not INFO: DEBUG when there is no file,
    WARNING when the version or a field is wrong, ERROR when an exception
    was swallowed; a load that raises has logged nothing. *)
Theorem load_checkpoint_logs_outcome (json : JsonCodec) (run_dir : Path)
    (w : World) :
  let w1 := snd (load_checkpoint json run_dir w) in
  match fst (load_checkpoint json run_dir w) with
  | Ok (Some _) => log w1 = log w ++ [(INFO, MsgLoaded)]
  | Ok None =>
      log w1 = log w ++ [(DEBUG, MsgNoCheckpoint (get_checkpoint_path run_dir))]
      \/ (exists v,
            log w1 = log w ++ [(WARNING, MsgVersionMismatch CHECKPOINT_VERSION v)])
      \/ (exists missing,
            log w1 = log w ++ [(WARNING, MsgMissingFields missing)])
      \/ (exists e,
            catches [OSError; JSONDecodeError; KeyError; TypeError] e = true
            /\ log w1 = log w ++ [(ERROR, MsgLoadFailed e)])
  | Raise _ => log w1 = log w
  end.
Proof.
  cbv beta iota zeta delta [load_checkpoint json_load try_except bind ret raise
    lift logger path_exists read_text tick].
  repeat (simpl; next_test); simpl;
    try reflexivity;
    first
      [ left; reflexivity
      | right; left; eexists; reflexivity
      | right; right; left; eexists; reflexivity
      | right; right; right; eexists; split; [|reflexivity];
        first [reflexivity | eassumption] ].
Qed.

(** X16.  The record a save leaves: read back by [load_checkpoint], it has
    the schema version of this build, the time of the save, and the tracer
    data given, an empty mapping standing for none. *)
Theorem save_checkpoint_record (json : JsonCodec) (run_dir : Path)
    (agent_state : AgentState) (scan_config tracer_data : pyval) (w : World)
    (snapshot it : pyval) (text : string) :
  fuse w = None ->
  model_dump agent_state = Some (Ok snapshot) ->
  iteration agent_state = Some it ->
  fs w !! run_dir = Some Dir ->
  fs w !! get_checkpoint_path run_dir <> Some Dir ->
  fs w !! get_temp_path run_dir <> Some Dir ->
  get_checkpoint_path run_dir ∉ denied w ->
  get_temp_path run_dir ∉ denied w ->
  json_encode json (build_checkpoint (clock w) scan_config snapshot tracer_data)
  = (text, None) ->
  json_decode json text
  = inr (build_checkpoint (clock w) scan_config snapshot tracer_data) ->
  String.length text <= space w ->
  exists ck,
    fst (bind (save_checkpoint json run_dir agent_state scan_config tracer_data)
              (fun _ => load_checkpoint json run_dir) w)
    = Ok (Some ck)
    /\ py_get ck "version" PNone = Ok (PInt CHECKPOINT_VERSION)
    /\ py_get ck "created_at" PNone = Ok (PStr (clock w))
    /\ py_get ck "tracer_data" PNone
       = Ok (if py_truthy tracer_data then tracer_data else PDict []).
Proof.
  intros Hfuse Hdump Hit Hdir Hck Htmp Hdck Hdtmp Henc Hdec Hspace.
  destruct (save_checkpoint_run json run_dir agent_state scan_config
              tracer_data w snapshot it text)
    as (w1 & Hrun & Hfs & _ & Hden & Hfuse1 & _ & _); try assumption.
  exists (build_checkpoint (clock w) scan_config snapshot tracer_data).
  split; [|repeat split].
  unfold bind. rewrite Hrun.
  etransitivity;
    [ eapply load_checkpoint_object;
      [ exact Hfuse1 | rewrite Hden; exact Hdck
      | rewrite Hfs; apply lookup_insert_eq | exact Hdec ]
    | reflexivity ].
Qed.

(** * Properties of the status breakdown *)

Lemma counts_get_set_eq (k : string) (n : Z) (d : list (string * Z))
    (default : Z) :
  counts_get k (counts_set k n d) default = n.
Proof.
  induction d as [|[k' n'] d IH]; simpl.
  - rewrite String.eqb_refl. reflexivity.
  - destruct (String.eqb k k') eqn:E; simpl; rewrite E; auto.
Qed.

Lemma counts_get_set_ne (k k' : string) (n : Z) (d : list (string * Z))
    (default : Z) :
  k <> k' ->
  counts_get k (counts_set k' n d) default = counts_get k d default.
Proof.
  intros Hne. induction d as [|[k2 n2] d IH]; simpl.
  - apply String.eqb_neq in Hne. rewrite Hne. reflexivity.
  - destruct (String.eqb k' k2) eqn:E; simpl.
    + apply String.eqb_eq in E. subst k2.
      apply String.eqb_neq in Hne. rewrite Hne. reflexivity.
    + destruct (String.eqb k k2); auto.
Qed.

Lemma counts_set_keys (k : string) (n : Z) (d : list (string * Z)) :
  List.map fst (counts_set k n d)
  = if existsb (String.eqb k) (List.map fst d) then List.map fst d
    else List.map fst d ++ [k].
Proof.
  induction d as [|[k' n'] d IH]; simpl; [reflexivity|].
  destruct (String.eqb k k') eqn:E; simpl; [reflexivity|].
  rewrite IH. destruct (existsb _ _); reflexivity.
Qed.

Lemma counts_set_total (k : string) (n : Z) (d : list (string * Z)) :
  counts_total (counts_set k n d)
  = (counts_total d - counts_get k d 0 + n)%Z.
Proof.
  unfold counts_total.
  induction d as [|[k' n'] d IH]; simpl; [lia|].
  destruct (String.eqb k k') eqn:E; simpl; [lia|].
  rewrite IH. lia.
Qed.

Lemma counts_set_positive (k : string) (n : Z) (d : list (string * Z)) :
  (0 < n)%Z ->
  Forall (fun kv => (0 < snd kv)%Z) d ->
  Forall (fun kv => (0 < snd kv)%Z) (counts_set k n d).
Proof.
  intros Hn Hd. induction Hd as [|[k' n'] d Hk Hd IH]; simpl.
  - constructor; [exact Hn | constructor].
  - destruct (String.eqb k k'); constructor; auto.
Qed.

Lemma counts_get_nonneg (k : string) (d : list (string * Z)) :
  Forall (fun kv => (0 < snd kv)%Z) d -> (0 <= counts_get k d 0)%Z.
Proof.
  intros Hd. induction Hd as [|[k' n'] d Hk Hd IH]; simpl; [lia|].
  destruct (String.eqb k k'); simpl in *; lia.
Qed.

Lemma counts_set_NoDup (k : string) (n : Z) (d : list (string * Z)) :
  NoDup (List.map fst d) -> NoDup (List.map fst (counts_set k n d)).
Proof.
  intros Hd. rewrite counts_set_keys.
  destruct (existsb (String.eqb k) (List.map fst d)) eqn:E; [exact Hd|].
  apply NoDup_app. split; [exact Hd|]. split.
  - intros x Hx Hk. apply list_elem_of_singleton in Hk. subst x.
    assert (existsb (String.eqb k) (List.map fst d) = true) as E'.
    { apply existsb_exists. exists k. split.
      - apply list_elem_of_In. exact Hx.
      - apply String.eqb_refl. }
    congruence.
  - apply NoDup_singleton.
Qed.

Section StatusBreakdownFacts.

Variable str_other : pyval -> result string.

Lemma count_hosts_step (host : pyval) (rest : list pyval)
    (breakdown : list (string * Z)) (key : string) :
  status_key str_other host = Some key ->
  count_hosts str_other (host :: rest) breakdown
  = count_hosts str_other rest
      (counts_set key (counts_get key breakdown 0 + 1) breakdown).
Proof.
  unfold status_key. simpl.
  destruct host as [| | | | | | | | d]; try discriminate. simpl.
  destruct (dict_get "status_code" d) as [code|].
  - destruct (py_str str_other code) as [k|e]; [|discriminate].
    intros [= ->]. reflexivity.
  - intros [= <-]. reflexivity.
Qed.

Lemma count_hosts_stuck (host : pyval) (rest : list pyval)
    (breakdown : list (string * Z)) :
  status_key str_other host = None ->
  exists e, count_hosts str_other (host :: rest) breakdown = Raise e
    /\ (e = AttributeError \/ exists v, str_other v = Raise e).
Proof.
  unfold status_key. simpl.
  destruct host as [| | | | | | | | d]; simpl;
    try (intros _; exists AttributeError; split; [reflexivity | left; reflexivity]).
  destruct (dict_get "status_code" d) as [code|]; [|discriminate].
  destruct (py_str str_other code) as [k|e] eqn:E; [discriminate|].
  intros _. exists e. split; [reflexivity|]. right.
  destruct code; simpl in E; try discriminate; eexists; exact E.
Qed.

Lemma has_key_true (k : string) (host : pyval) :
  has_key str_other k host = true <-> status_key str_other host = Some k.
Proof.
  unfold has_key. destruct (status_key str_other host) as [key|].
  - rewrite String.eqb_eq. split; [intros ->; reflexivity | intros [= ->]; reflexivity].
  - split; discriminate.
Qed.

Lemma count_hosts_counts (hosts : list pyval) :
  forall breakdown,
    match count_hosts str_other hosts breakdown with
    | Ok final =>
        Forall (fun host => status_key str_other host <> None) hosts
        /\ forall k,
             counts_get k final 0
             = (counts_get k breakdown 0
                + Z.of_nat (hosts_with str_other k hosts))%Z
    | Raise e =>
        (e = AttributeError \/ exists v, str_other v = Raise e)
        /\ Exists (fun host => status_key str_other host = None) hosts
    end.
Proof.
  induction hosts as [|host rest IH]; intros breakdown.
  - simpl. split; [constructor|]. intros k. unfold hosts_with. simpl. lia.
  - destruct (status_key str_other host) as [key|] eqn:Hkey.
    + rewrite (count_hosts_step host rest breakdown key Hkey).
      specialize (IH (counts_set key (counts_get key breakdown 0 + 1) breakdown)).
      destruct (count_hosts str_other rest _) as [final|e].
      * destruct IH as [Hall Hcount]. split.
        { constructor; [congruence | exact Hall]. }
        intros k. rewrite Hcount. unfold hosts_with. simpl.
        destruct (has_key str_other k host) eqn:Hk.
        { apply has_key_true in Hk. assert (key = k) as -> by congruence.
          rewrite counts_get_set_eq. simpl List.length. lia. }
        { rewrite counts_get_set_ne; [reflexivity|].
          intros ->. assert (has_key str_other key host = true) as Hk'
            by (apply has_key_true; exact Hkey).
          congruence. }
      * destruct IH as [He Hex]. split; [exact He|].
        apply Exists_cons_tl. exact Hex.
    + destruct (count_hosts_stuck host rest breakdown Hkey) as (e & -> & He).
      split; [exact He|]. apply Exists_cons_hd. exact Hkey.
Qed.

Lemma count_hosts_shape (hosts : list pyval) :
  forall breakdown final,
    count_hosts str_other hosts breakdown = Ok final ->
    NoDup (List.map fst breakdown) ->
    Forall (fun kv => (0 < snd kv)%Z) breakdown ->
    NoDup (List.map fst final)
    /\ Forall (fun kv => (0 < snd kv)%Z) final
    /\ counts_total final
       = (counts_total breakdown + Z.of_nat (List.length hosts))%Z.
Proof.
  induction hosts as [|host rest IH]; intros breakdown final Hrun Hnd Hpos.
  - simpl in Hrun. injection Hrun as <-. repeat split; auto. simpl. lia.
  - destruct (status_key str_other host) as [key|] eqn:Hkey.
    + rewrite (count_hosts_step host rest breakdown key Hkey) in Hrun.
      pose proof (counts_get_nonneg key breakdown Hpos) as Hge.
      destruct (IH _ _ Hrun) as (Hnd' & Hpos' & Htot).
      * apply counts_set_NoDup. exact Hnd.
      * apply counts_set_positive; [lia | exact Hpos].
      * repeat split; auto. rewrite Htot, counts_set_total.
        simpl List.length. lia.
    + destruct (count_hosts_stuck host rest breakdown Hkey) as (e & He & _).
      congruence.
Qed.

End StatusBreakdownFacts.

(** X17.  [_get_status_breakdown] counts: when it returns, every host had a
    key (the text of its status code, ["unknown"] without one) and the
    breakdown gives, for every text, the number of hosts counted under it,
    0 standing for a text that is no key of it.  When it raises, some host
    was not a record or had a status code without text. *)
Theorem status_breakdown_counts (str_other : pyval -> result string)
    (hosts : list pyval) :
  match _get_status_breakdown str_other hosts with
  | Ok breakdown =>
      Forall (fun host => status_key str_other host <> None) hosts
      /\ forall k,
           counts_get k breakdown 0 = Z.of_nat (hosts_with str_other k hosts)
  | Raise _ =>
      Exists (fun host => status_key str_other host = None) hosts
  end.
Proof.
  unfold _get_status_breakdown.
  pose proof (count_hosts_counts str_other hosts []) as H.
  destruct (count_hosts str_other hosts []) as [final|e].
  - destruct H as [Hall Hcount]. split; [exact Hall|].
    intros k. rewrite Hcount. simpl. lia.
  - apply H.
Qed.

(** X18.  The breakdown [_get_status_breakdown] returns has each key once,
    every count is positive, and the counts add up to the number of hosts.
    What it raises is the [AttributeError] of a host that is no record, or
    what [str] raised. *)
Theorem status_breakdown_total (str_other : pyval -> result string)
    (hosts : list pyval) :
  match _get_status_breakdown str_other hosts with
  | Ok breakdown =>
      NoDup (List.map fst breakdown)
      /\ Forall (fun kv => (0 < snd kv)%Z) breakdown
      /\ counts_total breakdown = Z.of_nat (List.length hosts)
  | Raise e => e = AttributeError \/ exists v, str_other v = Raise e
  end.
Proof.
  unfold _get_status_breakdown.
  pose proof (count_hosts_counts str_other hosts []) as H.
  destruct (count_hosts str_other hosts []) as [final|e] eqn:Hrun.
  - destruct (count_hosts_shape str_other hosts [] final Hrun)
      as (Hnd & Hpos & Htot); [constructor | constructor |].
    repeat split; auto.
  - apply H.
Qed.

(** * Instances of the further properties *)

Import Variants.

(** X1 on the fresh device. *)
Lemma save_checkpoint_effect_witness :
  let w1 :=
    snd (save_checkpoint MiniJson.codec run_dir agent config PNone fresh) in
  fst (save_checkpoint MiniJson.codec run_dir agent config PNone fresh) = Ok tt
  /\ fs w1 !! get_checkpoint_path run_dir
     = Some (File (record_text config snapshot PNone))
  /\ fs w1 !! get_temp_path run_dir = None
  /\ (forall q, q <> get_checkpoint_path run_dir -> q <> get_temp_path run_dir ->
      fs w1 !! q = fs fresh !! q)
  /\ log w1 = log fresh ++ [(INFO, MsgSaved (PInt 5))].
Proof.
  apply (save_checkpoint_effect MiniJson.codec run_dir agent config PNone fresh
           snapshot (PInt 5) (record_text config snapshot PNone)).
  - reflexivity.
  - reflexivity.
  - reflexivity.
  - vm_compute; reflexivity.
  - vm_compute; discriminate.
  - vm_compute; discriminate.
  - apply not_elem_of_empty.
  - apply not_elem_of_empty.
  - vm_compute; reflexivity.
  - apply Nat.leb_le. vm_compute; reflexivity.
Defined.

(** X2: the agent saves at its fifth and at its sixth iteration. *)
Lemma save_checkpoint_overwrites_witness :
  let w2 :=
    snd (bind (save_checkpoint MiniJson.codec run_dir agent config PNone)
              (fun _ => save_checkpoint MiniJson.codec run_dir later_agent
                          later_config PNone) fresh) in
  fs w2
  = <[get_checkpoint_path run_dir
      := File (record_text later_config later_snapshot PNone)]>
      (delete (get_temp_path run_dir) (fs fresh))
  /\ fst (load_checkpoint MiniJson.codec run_dir w2)
     = Ok (Some (build_checkpoint (clock fresh) later_config later_snapshot
                   PNone)).
Proof.
  apply (save_checkpoint_overwrites MiniJson.codec run_dir agent later_agent
           config later_config PNone PNone fresh snapshot later_snapshot
           (PInt 5) (PInt 6) (record_text config snapshot PNone)
           (record_text later_config later_snapshot PNone)).
  - reflexivity.
  - reflexivity.
  - reflexivity.
  - reflexivity.
  - reflexivity.
  - vm_compute; reflexivity.
  - vm_compute; discriminate.
  - vm_compute; discriminate.
  - apply not_elem_of_empty.
  - apply not_elem_of_empty.
  - vm_compute; reflexivity.
  - vm_compute; reflexivity.
  - vm_compute; reflexivity.
  - apply Nat.leb_le. vm_compute; reflexivity.
Defined.

(** X3: the run directory itself, through a save on the cramped device. *)
Lemma save_checkpoint_touches_two_paths_witness :
  let w1 :=
    snd (save_checkpoint MiniJson.codec run_dir agent config PNone cramped) in
  fs w1 !! run_dir = fs cramped !! run_dir /\ denied w1 = denied cramped.
Proof.
  apply (save_checkpoint_touches_two_paths MiniJson.codec run_dir agent config
           PNone cramped run_dir).
  - vm_compute; discriminate.
  - vm_compute; discriminate.
Defined.

(** X4: a save in another run directory beside a checkpoint in place. *)
Lemma save_checkpoint_isolated_runs_witness :
  let w1 :=
    snd (save_checkpoint MiniJson.codec other_dir agent config PNone
           (with_checkpoint running)) in
  fs w1 !! get_checkpoint_path run_dir
  = fs (with_checkpoint running) !! get_checkpoint_path run_dir
  /\ fst (load_checkpoint MiniJson.codec run_dir (set_fuse w1 None))
     = fst (load_checkpoint MiniJson.codec run_dir
              (set_fuse (with_checkpoint running) None)).
Proof.
  apply (save_checkpoint_isolated_runs MiniJson.codec other_dir run_dir agent
           config PNone (with_checkpoint running) None).
  vm_compute; discriminate.
Defined.

(** X5 on the checkpoint of a running scan. *)
Lemma load_checkpoint_outcomes_witness :
  fst (load_checkpoint MiniJson.codec run_dir (with_checkpoint running))
  = match
      json_decode MiniJson.codec (fst (MiniJson.dumps running))
    with
    | inl DecJSONDecodeError => Ok None
    | inl e => Raise (exn_of_decode e)
    | inr (PDict d) =>
        Ok (if valid_checkpoint (PDict d) then Some (PDict d) else None)
    | inr _ => Raise AttributeError
    end.
Proof.
  apply (load_checkpoint_outcomes MiniJson.codec run_dir
           (with_checkpoint running) (fst (MiniJson.dumps running))).
  - reflexivity.
  - apply not_elem_of_empty.
  - vm_compute; reflexivity.
Defined.

(** X6 on the fresh device, which holds no checkpoint. *)
Lemma load_checkpoint_unavailable_witness :
  fst (load_checkpoint MiniJson.codec run_dir fresh) = Ok None
  /\ fst (can_resume MiniJson.codec run_dir config fresh) = Ok false.
Proof.
  apply (load_checkpoint_unavailable MiniJson.codec run_dir config fresh).
  - reflexivity.
  - left. vm_compute; reflexivity.
Defined.

(** X8: a run directory that was never created. *)
Lemma save_checkpoint_missing_run_dir_witness :
  save_checkpoint MiniJson.codec missing_dir agent config PNone fresh
  = (Ok tt, add_log fresh (ERROR, MsgSaveFailed OSError)).
Proof.
  apply (save_checkpoint_missing_run_dir MiniJson.codec missing_dir agent config
           PNone fresh snapshot).
  - reflexivity.
  - reflexivity.
  - vm_compute; discriminate.
Defined.

(** X9 on the cramped device, beside a checkpoint in place. *)
Lemma save_checkpoint_disk_full_witness :
  let w := set_space (with_checkpoint running) 64 in
  let w1 :=
    snd (save_checkpoint MiniJson.codec run_dir agent config PNone w) in
  fst (save_checkpoint MiniJson.codec run_dir agent config PNone w) = Ok tt
  /\ fs w1
     = <[get_temp_path run_dir
         := File (text_prefix (space w) (record_text config snapshot PNone))]>
         (fs w)
  /\ fs w1 !! get_checkpoint_path run_dir = fs w !! get_checkpoint_path run_dir
  /\ space w1 = 0
  /\ log w1 = log w ++ [(ERROR, MsgSaveFailed OSError)].
Proof.
  apply (save_checkpoint_disk_full MiniJson.codec run_dir agent config PNone
           (set_space (with_checkpoint running) 64) snapshot
           (record_text config snapshot PNone) None).
  - reflexivity.
  - reflexivity.
  - vm_compute; reflexivity.
  - vm_compute; discriminate.
  - apply not_elem_of_empty.
  - vm_compute; reflexivity.
  - apply Nat.ltb_lt. vm_compute; reflexivity.
Defined.

(** X10: a configuration whose targets are a set. *)
Lemma save_checkpoint_unserializable_witness :
  let text :=
    fst (MiniJson.dumps
           (build_checkpoint (clock fresh) set_config snapshot PNone)) in
  let w1 :=
    snd (save_checkpoint MiniJson.codec run_dir agent set_config PNone
           (with_checkpoint running)) in
  fst (save_checkpoint MiniJson.codec run_dir agent set_config PNone
         (with_checkpoint running)) = Ok tt
  /\ fs w1 = <[get_temp_path run_dir := File text]> (fs (with_checkpoint running))
  /\ fs w1 !! get_checkpoint_path run_dir
     = fs (with_checkpoint running) !! get_checkpoint_path run_dir
  /\ log w1
     = log (with_checkpoint running)
       ++ [(ERROR, MsgSaveFailed (exn_of_encode EncTypeError))].
Proof.
  apply (save_checkpoint_unserializable MiniJson.codec run_dir agent set_config
           PNone (with_checkpoint running) snapshot
           (fst (MiniJson.dumps
                   (build_checkpoint (clock fresh) set_config snapshot PNone)))
           EncTypeError).
  - reflexivity.
  - reflexivity.
  - vm_compute; reflexivity.
  - vm_compute; discriminate.
  - apply not_elem_of_empty.
  - vm_compute; reflexivity.
  - apply Nat.leb_le. vm_compute; reflexivity.
Defined.

(** X11: saved with one target, asked with another one. *)
Lemma save_then_can_resume_witness :
  fst (bind (save_checkpoint MiniJson.codec run_dir agent config PNone)
            (fun _ => can_resume MiniJson.codec run_dir (PDict other_config))
            fresh)
  = Ok true.
Proof.
  apply (save_then_can_resume MiniJson.codec run_dir agent PNone fresh
           [("iteration", PInt 5); ("completed", PBool false)]
           [("targets", PList [PStr "a.com"])] other_config (PInt 5)
           (record_text config snapshot PNone) [PStr "a.com"] [PStr "b.com"]).
  - reflexivity.
  - reflexivity.
  - reflexivity.
  - vm_compute; reflexivity.
  - vm_compute; discriminate.
  - vm_compute; discriminate.
  - apply not_elem_of_empty.
  - apply not_elem_of_empty.
  - vm_compute; reflexivity.
  - vm_compute; reflexivity.
  - apply Nat.leb_le. vm_compute; reflexivity.
  - reflexivity.
  - reflexivity.
Defined.

(** X12 on the fresh device. *)
Lemma save_then_delete_restores_witness :
  fs (snd (bind (save_checkpoint MiniJson.codec run_dir agent config PNone)
                (fun _ => delete_checkpoint run_dir) fresh))
  = fs fresh.
Proof.
  apply (save_then_delete_restores MiniJson.codec run_dir agent config PNone
           fresh snapshot (PInt 5) (record_text config snapshot PNone)).
  - reflexivity.
  - reflexivity.
  - reflexivity.
  - vm_compute; reflexivity.
  - vm_compute; reflexivity.
  - vm_compute; reflexivity.
  - apply not_elem_of_empty.
  - apply not_elem_of_empty.
  - vm_compute; reflexivity.
  - apply Nat.leb_le. vm_compute; reflexivity.
Defined.

(** X13: the run directory, through the deletion of a checkpoint in place. *)
Lemma delete_checkpoint_touches_one_path_witness :
  let w1 := snd (delete_checkpoint run_dir (with_checkpoint running)) in
  fs w1 !! run_dir = fs (with_checkpoint running) !! run_dir
  /\ denied w1 = denied (with_checkpoint running).
Proof.
  apply (delete_checkpoint_touches_one_path run_dir (with_checkpoint running)
           run_dir).
  vm_compute; discriminate.
Defined.

(** X16: no tracer data given. *)
Lemma save_checkpoint_record_witness :
  exists ck,
    fst (bind (save_checkpoint MiniJson.codec run_dir agent config PNone)
              (fun _ => load_checkpoint MiniJson.codec run_dir) fresh)
    = Ok (Some ck)
    /\ py_get ck "version" PNone = Ok (PInt CHECKPOINT_VERSION)
    /\ py_get ck "created_at" PNone = Ok (PStr (clock fresh))
    /\ py_get ck "tracer_data" PNone = Ok (PDict []).
Proof.
  apply (save_checkpoint_record MiniJson.codec run_dir agent config PNone fresh
           snapshot (PInt 5) (record_text config snapshot PNone)).
  - reflexivity.
  - reflexivity.
  - reflexivity.
  - vm_compute; reflexivity.
  - vm_compute; discriminate.
  - vm_compute; discriminate.
  - apply not_elem_of_empty.
  - apply not_elem_of_empty.
  - vm_compute; reflexivity.
  - vm_compute; reflexivity.
  - apply Nat.leb_le. vm_compute; reflexivity.
Defined.
